(** * TraceWeatherCEP: postal code to city temperature, two HTTP services

    A shallow embedding of the request pipeline of the two Go programs
    [service-a/main.go] (the front gateway, [POST /cep]) and
    [service-b/main.go] (the resolver, [POST /weather]), with the
    properties of their validation, conversion and error mapping.

    Go strings are byte strings and are modelled by [string]; Go [int]
    status codes and provider codes by [Z]; Go [float64] by the kernel's
    binary64 [float], whose operations round to nearest, ties to even. *)

From Stdlib Require Import Bool Arith ZArith Lia List Ascii String DecimalString Floats.
Import ListNotations.

Set Warnings "-inexact-float".

Local Open Scope string_scope.

(** ** The [regexp] package, as far as [validateCEP] needs it

    The pattern language is restricted to what the source's pattern uses:
    the anchors [^] and [$] (without the multi-line flag: begin and end of
    the text), the Perl class [\d] (ASCII digits only), counted repetition
    [{n}] and literal bytes.  The matcher works on bytes.  For this pattern
    that agrees with matching on UTF-8 runes: every digit is one byte and
    no byte of a longer encoding lies in the digit range. *)
Module regexp.

Inductive Regexp : Type :=
| OpBeginText
| OpEndText
| OpCharClass (lo hi : ascii)
| OpLiteral (c : ascii)
| OpConcat (a b : Regexp)
| OpRepeat (n : nat) (a : Regexp).

Definition inRange (lo hi c : ascii) : bool :=
  ((nat_of_ascii lo <=? nat_of_ascii c) && (nat_of_ascii c <=? nat_of_ascii hi))%nat.

Definition perlDigit : Regexp := OpCharClass "0"%char "9"%char.

(** *** Parsing a pattern *)

Definition digitValue (c : ascii) : option nat :=
  if inRange "0"%char "9"%char c then Some (nat_of_ascii c - 48) else None.

(** Reads the decimal count of a repetition up to the closing brace. *)
Fixpoint readCount (p : list ascii) (acc : option nat) : option (nat * list ascii) :=
  match p with
  | [] => None
  | c :: p' =>
      if Ascii.eqb c "}"%char then
        match acc with Some n => Some (n, p') | None => None end
      else
        match digitValue c with
        | Some d => readCount p' (Some (10 * match acc with Some n => n | None => 0 end + d))
        | None => None
        end
  end.

(** [stack] holds the pieces parsed so far, the latest first. *)
Fixpoint parseLoop (fuel : nat) (p : list ascii) (stack : list Regexp) : option (list Regexp) :=
  match fuel with
  | O => None
  | S fuel' =>
      match p with
      | [] => Some stack
      | c :: p' =>
          if Ascii.eqb c "^"%char then parseLoop fuel' p' (OpBeginText :: stack)
          else if Ascii.eqb c "$"%char then parseLoop fuel' p' (OpEndText :: stack)
          else if Ascii.eqb c "\"%char then
            match p' with
            | d :: p'' =>
                if Ascii.eqb d "d"%char then parseLoop fuel' p'' (perlDigit :: stack)
                else None
            | [] => None
            end
          else if Ascii.eqb c "{"%char then
            match readCount p' None, stack with
            | Some (n, rest), a :: stack' => parseLoop fuel' rest (OpRepeat n a :: stack')
            | _, _ => None
            end
          else parseLoop fuel' p' (OpLiteral c :: stack)
      end
  end.

(** The pieces, latest first, folded into one concatenation. *)
Fixpoint concatOf (stack : list Regexp) : option Regexp :=
  match stack with
  | [] => None
  | [a] => Some a
  | b :: stack' =>
      match concatOf stack' with
      | Some a => Some (OpConcat a b)
      | None => None
      end
  end.

Definition Compile (pattern : string) : option Regexp :=
  let p := list_ascii_of_string pattern in
  match parseLoop (S (List.length p)) p [] with
  | Some stack => concatOf stack
  | None => None
  end.

(** *** Matching

    [matchHere r pos rest k]: [r] matches a prefix of [rest], which
    starts at byte offset [pos] of the text, and the continuation [k]
    accepts what follows. *)
Fixpoint matchHere (r : Regexp) (pos : nat) (rest : list ascii)
    (k : nat -> list ascii -> bool) {struct r} : bool :=
  match r with
  | OpBeginText => (pos =? 0)%nat && k pos rest
  | OpEndText => match rest with [] => k pos rest | _ :: _ => false end
  | OpCharClass lo hi =>
      match rest with
      | c :: rest' => inRange lo hi c && k (S pos) rest'
      | [] => false
      end
  | OpLiteral c0 =>
      match rest with
      | c :: rest' => Ascii.eqb c0 c && k (S pos) rest'
      | [] => false
      end
  | OpConcat a b => matchHere a pos rest (fun pos' rest' => matchHere b pos' rest' k)
  | OpRepeat n a =>
      (fix rep (n : nat) (pos : nat) (rest : list ascii) {struct n} : bool :=
         match n with
         | O => k pos rest
         | S n' => matchHere a pos rest (fun pos' rest' => rep n' pos' rest')
         end) n pos rest
  end.

Definition accept (_ : nat) (_ : list ascii) : bool := true.

(** An unanchored search: a match may start at any offset. *)
Fixpoint searchFrom (r : Regexp) (pos : nat) (rest : list ascii) : bool :=
  matchHere r pos rest accept
  || match rest with
     | [] => false
     | _ :: rest' => searchFrom r (S pos) rest'
     end.

Definition Match (r : Regexp) (s : string) : bool :=
  searchFrom r 0 (list_ascii_of_string s).

(** [regexp.MatchString]: the match result and whether the pattern was
    in error; on a pattern error the result is [false]. *)
Definition MatchString (pattern s : string) : bool * bool :=
  match Compile pattern with
  | Some r => (Match r s, false)
  | None => (false, true)
  end.

End regexp.

(** ** [validateCEP] (the same function in both programs) *)

Definition cepPattern : string := "^\d{8}$".

Definition validateCEP (cep : string) : bool :=
  let '(matched, _) := regexp.MatchString cepPattern cep in
  matched.

(** The validator's contract: eight bytes, each an ASCII digit. *)
Definition isDigit (c : ascii) : bool := regexp.inRange "0"%char "9"%char c.

Definition eightDigits (s : string) : Prop :=
  String.length s = 8 /\ forallb isDigit (list_ascii_of_string s) = true.


(** ** Temperature conversion (resolver)

    The product and the sum are rounded one after the other, each to the
    nearest binary64 value. *)

Definition celsiusToFahrenheit (celsius : float) : float := (celsius * 1.8 + 32)%float.

Definition celsiusToKelvin (celsius : float) : float := (celsius + 273)%float.

(** Go's [==] on float64: IEEE equality, false as soon as a side is NaN. *)
Definition floatEq (x y : float) : bool := (x =? y)%float.

(** A finite float64: neither an infinity nor NaN. *)
Definition isFinite (x : float) : bool := is_finite x.

(** ** Data model *)

Record CEPRequest := { CEP : string }.

Record WeatherResponse := {
  City : string;
  TempC : float;
  TempF : float;
  TempK : float
}.

Record ErrorResponse := { Message : string }.

(** The fields of the postal provider's payload that the resolver reads. *)
Record ViaCEPResponse := {
  Localidade : string;
  UF : string;
  Erro : bool
}.

Record WeatherError := { Code : Z; Msg : string }.

(** The anonymous struct [w] of [getWeather]: [Current.TempC] and the
    optional [Error] object (a nil pointer is [None]). *)
Record WeatherPayload := {
  CurrentTempC : float;
  EmbeddedError : option WeatherError
}.

(** ** Errors

    [errorString] is what [errors.New] and [fmt.Errorf] build in these
    programs.  [urlError] is the [*url.Error] that [http.Client.Do] and
    URL parsing return.  [foreignError] is any other error of the standard
    library (reading a body, decoding JSON), known only by its text. *)
Inductive error : Type :=
| errorString (text : string)
| urlError (Op URL cause : string)
| foreignError (text : string).

Definition doubleQuote : string := String (ascii_of_nat 34) EmptyString.

(** [err.Error()] *)
Definition Error (e : error) : string :=
  match e with
  | errorString text => text
  | urlError Op URL cause => Op ++ " " ++ doubleQuote ++ URL ++ doubleQuote ++ ": " ++ cause
  | foreignError text => text
  end.

(** The verb [%d] of [fmt] on an [int]. *)
Definition formatInt (n : Z) : string := NilZero.string_of_int (Z.to_int n).

(** ** What the programs run on

    [Body] of a response is the outcome of [io.ReadAll] on it: the bytes,
    or the text of the read error. *)
Record Request := {
  Method : string;
  URL : string;
  Header : list (string * string);
  Payload : string
}.

Record Response := {
  StatusCode : Z;
  ContentType : string;
  Body : string + string
}.

Record Platform := {
  (** [os.Getenv]: the empty string when the variable is unset *)
  Getenv : string -> string;
  (** URL parsing inside [http.NewRequestWithContext]: the cause of a failure, if any *)
  urlParse : string -> option string;
  (** [url.QueryEscape], used by [url.Values.Encode] *)
  QueryEscape : string -> string;
  (** the transport behind [http.Client.Do]: a response, or the cause of a failure *)
  RoundTrip : Request -> string + Response;
  (** [json.Marshal] of a [CEPRequest] *)
  marshalCEPRequest : CEPRequest -> string;
  (** [c.ShouldBindJSON(&req)] on the inbound body *)
  ShouldBindJSON : string -> string + CEPRequest;
  (** [json.Unmarshal] into a [ViaCEPResponse] and into the weather struct *)
  unmarshalViaCEP : string -> string + ViaCEPResponse;
  unmarshalWeather : string -> string + WeatherPayload
}.

(** ** Effects: spans and outbound calls, in the order they happen *)

Inductive attrValue : Type :=
| AString (s : string)
| AInt64 (n : Z)
| AFloat64 (x : float)
| ABool (b : bool).

Inductive event : Type :=
| SpanStart (span : string)
| SpanEnd (span : string)
| SetAttributes (span key : string) (v : attrValue)
| RecordError (span : string) (e : error)
| HTTPCall (r : Request).

Definition M (A : Type) : Type := (A * list event)%type.

Definition ret {A} (a : A) : M A := (a, []).

Definition bind {A B} (m : M A) (f : A -> M B) : M B :=
  let '(a, l1) := m in
  let '(b, l2) := f a in
  (b, (l1 ++ l2)%list).

Definition emit (e : event) : M unit := (tt, [e]).

Declare Scope go_scope.
Delimit Scope go_scope with go.
Notation "x <- m ;; k" := (bind m (fun x => k))
  (at level 61, m at next level, right associativity) : go_scope.
Notation "' pat <- m ;; k" := (bind m (fun x => match x with pat => k end))
  (at level 61, pat pattern, m at next level, right associativity) : go_scope.
Notation "m ;; k" := (bind m (fun _ => k))
  (at level 61, right associativity) : go_scope.
Local Open Scope go_scope.

Definition value {A} (m : M A) : A := fst m.
Definition trace {A} (m : M A) : list event := snd m.

(** [ctx, span := tracer.Start(ctx, name); defer span.End()] around [body] *)
Definition withSpan {A} (name : string) (body : M A) : M A :=
  emit (SpanStart name) ;;
  r <- body ;;
  emit (SpanEnd name) ;;
  ret r.

(** [http.NewRequestWithContext] *)
Definition NewRequestWithContext (P : Platform) (method url body : string) : error + Request :=
  match urlParse P url with
  | Some cause => inl (urlError "parse" url cause)
  | None => inr {| Method := method; URL := url; Header := []; Payload := body |}
  end.

(** The [Op] of the [*url.Error] of [Client.Do]: the method, capitalised. *)
Definition opOf (method : string) : string :=
  if String.eqb method "GET" then "Get"
  else if String.eqb method "POST" then "Post"
  else method.

(** [client.Do(req)]: the request goes out, and a failure comes back as a [*url.Error]. *)
Definition Do (P : Platform) (req : Request) : M (error + Response) :=
  emit (HTTPCall req) ;;
  match RoundTrip P req with
  | inl cause => ret (inl (urlError (opOf (Method req)) (URL req) cause))
  | inr resp => ret (inr resp)
  end.

Definition isHTTPCall (e : event) : bool :=
  match e with HTTPCall _ => true | _ => false end.

(** No outbound call of any kind happened. *)
Definition noNetwork (l : list event) : Prop := forallb (fun e => negb (isHTTPCall e)) l = true.

(** ** Replies of the handlers

    [c.JSON(code, obj)] serialises [obj]; [c.Data(code, contentType, data)]
    writes [data] as it is.  A reply keeps the struct handed to [c.JSON]:
    [encoding/json] prints a float64 field as the shortest decimal that
    reads back as the same float64. *)
Inductive Content : Type :=
| ErrorJSON (r : ErrorResponse)
| WeatherJSON (r : WeatherResponse)
| Data (contentType : string) (data : string).

Record Reply := { Status : Z; Sent : Content }.

Definition JSONError (code : Z) (message : string) : Reply :=
  {| Status := code; Sent := ErrorJSON {| Message := message |} |}.

(** ** The resolver (service B) *)
Module ServiceB.

Definition viaCEPURL (cep : string) : string :=
  "https://viacep.com.br/ws/" ++ cep ++ "/json/".

(** [url.Values{...}.Encode()]: the keys in sorted order *)
Definition weatherURL (P : Platform) (apiKey city : string) : string :=
  "https://api.weatherapi.com/v1/current.json?"
  ++ "aqi=no" ++ "&key=" ++ QueryEscape P apiKey ++ "&q=" ++ QueryEscape P city.

Definition getCityFromCEP (P : Platform) (cep : string) : M (string * option error) :=
  let span := "viacep-lookup" in
  withSpan span (
    emit (SetAttributes span "cep" (AString cep)) ;;
    let url := viaCEPURL cep in
    match NewRequestWithContext P "GET" url "" with
    | inl err => emit (RecordError span err) ;; ret ("", Some err)
    | inr req =>
        r <- Do P req ;;
        match r with
        | inl err => emit (RecordError span err) ;; ret ("", Some err)
        | inr resp =>
            match Body resp with
            | inl text =>
                let err := foreignError text in
                emit (RecordError span err) ;; ret ("", Some err)
            | inr body =>
                match unmarshalViaCEP P body with
                | inl text =>
                    let err := foreignError text in
                    emit (RecordError span err) ;; ret ("", Some err)
                | inr viaCEPResp =>
                    if Erro viaCEPResp then
                      emit (SetAttributes span "cep.not_found" (ABool true)) ;;
                      ret ("", Some (errorString "CEP not found"))
                    else
                      emit (SetAttributes span "city" (AString (Localidade viaCEPResp))) ;;
                      emit (SetAttributes span "state" (AString (UF viaCEPResp))) ;;
                      ret (Localidade viaCEPResp, None)
                end
            end
        end
    end).

Definition StatusUnauthorized : Z := 401.
Definition StatusForbidden : Z := 403.

Definition getWeather (P : Platform) (city : string) : M (float * option error) :=
  let span := "weather-lookup" in
  withSpan span (
    emit (SetAttributes span "city" (AString city)) ;;
    let apiKey := Getenv P "WEATHERAPI_KEY" in
    if String.eqb apiKey "" then
      let err := errorString "WEATHERAPI_KEY not set" in
      emit (RecordError span err) ;; ret (0%float, Some err)
    else
      let weatherURL := weatherURL P apiKey city in
      match NewRequestWithContext P "GET" weatherURL "" with
      | inl err => emit (RecordError span err) ;; ret (0%float, Some err)
      | inr wReq =>
          r <- Do P wReq ;;
          match r with
          | inl err => emit (RecordError span err) ;; ret (0%float, Some err)
          | inr wResp =>
              if (StatusCode wResp =? StatusUnauthorized)%Z || (StatusCode wResp =? StatusForbidden)%Z then
                let err := errorString ("weatherapi auth error: " ++ formatInt (StatusCode wResp)) in
                emit (RecordError span err) ;; ret (0%float, Some err)
              else
                match Body wResp with
                | inl text =>
                    let err := foreignError text in
                    emit (RecordError span err) ;; ret (0%float, Some err)
                | inr wBody =>
                    match unmarshalWeather P wBody with
                    | inl text =>
                        let err := foreignError text in
                        emit (RecordError span err) ;; ret (0%float, Some err)
                    | inr w =>
                        match EmbeddedError w with
                        | Some werr =>
                            if (Code werr =? 1006)%Z then
                              let err := errorString "city not found" in
                              emit (RecordError span err) ;; ret (0%float, Some err)
                            else
                              let err := errorString ("weatherapi error " ++ formatInt (Code werr)
                                                      ++ ": " ++ Msg werr) in
                              emit (RecordError span err) ;; ret (0%float, Some err)
                        | None =>
                            let tempC := CurrentTempC w in
                            emit (SetAttributes span "temperature.celsius" (AFloat64 tempC)) ;;
                            ret (tempC, None)
                        end
                    end
                end
          end
      end).

(** The handler of [POST /weather], on the inbound body. *)
Definition handler (P : Platform) (inbound : string) : M Reply :=
  let span := "weather-endpoint" in
  withSpan span (
    match ShouldBindJSON P inbound with
    | inl text =>
        emit (RecordError span (foreignError text)) ;;
        ret (JSONError 422 "invalid zipcode")
    | inr req =>
        if negb (validateCEP (CEP req)) then
          ret (JSONError 422 "invalid zipcode")
        else
          emit (SetAttributes span "cep" (AString (CEP req))) ;;
          '(city, err) <- getCityFromCEP P (CEP req) ;;
          match err with
          | Some err =>
              if String.eqb (Error err) "CEP not found" then
                ret (JSONError 404 "can not find zipcode")
              else
                emit (RecordError span err) ;;
                ret (JSONError 500 "internal server error")
          | None =>
              '(tempC, err) <- getWeather P city ;;
              match err with
              | Some err =>
                  if String.eqb (Error err) "city not found" then
                    ret (JSONError 404 "can not find zipcode")
                  else
                    emit (RecordError span err) ;;
                    ret (JSONError 500 "internal server error")
              | None =>
                  let tempF := celsiusToFahrenheit tempC in
                  let tempK := celsiusToKelvin tempC in
                  let response :=
                    {| City := city; TempC := tempC; TempF := tempF; TempK := tempK |} in
                  emit (SetAttributes span "response.city" (AString city)) ;;
                  emit (SetAttributes span "response.temp_c" (AFloat64 tempC)) ;;
                  emit (SetAttributes span "response.temp_f" (AFloat64 tempF)) ;;
                  emit (SetAttributes span "response.temp_k" (AFloat64 tempK)) ;;
                  ret {| Status := 200; Sent := WeatherJSON response |}
              end
          end
    end).

End ServiceB.

(** ** The front gateway (service A) *)
Module ServiceA.

Definition serviceBURL : string := "http://service-b:8081/weather".

(** The handler of [POST /cep], on the inbound body. *)
Definition handler (P : Platform) (inbound : string) : M Reply :=
  let span := "validate-cep" in
  withSpan span (
    match ShouldBindJSON P inbound with
    | inl text =>
        emit (RecordError span (foreignError text)) ;;
        ret (JSONError 422 "invalid zipcode")
    | inr req =>
        if negb (validateCEP (CEP req)) then
          ret (JSONError 422 "invalid zipcode")
        else
          emit (SetAttributes span "cep" (AString (CEP req))) ;;
          let callSpan := "call-service-b" in
          withSpan callSpan (
            let reqBody := marshalCEPRequest P req in
            match NewRequestWithContext P "POST" serviceBURL reqBody with
            | inl err =>
                emit (RecordError callSpan err) ;;
                ret (JSONError 500 "internal server error")
            | inr httpReq =>
                let httpReq :=
                  {| Method := Method httpReq; URL := URL httpReq;
                     Header := [("Content-Type", "application/json")];
                     Payload := Payload httpReq |} in
                r <- Do P httpReq ;;
                match r with
                | inl err =>
                    emit (RecordError callSpan err) ;;
                    ret (JSONError 500 "internal server error")
                | inr resp =>
                    match Body resp with
                    | inl text =>
                        emit (RecordError callSpan (foreignError text)) ;;
                        ret (JSONError 500 "internal server error")
                    | inr body =>
                        emit (SetAttributes callSpan "http.status_code" (AInt64 (StatusCode resp))) ;;
                        ret {| Status := StatusCode resp; Sent := Data "application/json" body |}
                    end
                end
            end)
    end).

End ServiceA.

(** ** Vocabulary of the properties *)

(** What the parser makes of [cepPattern]. *)
Definition cepRegexp : regexp.Regexp :=
  regexp.OpConcat
    (regexp.OpConcat regexp.OpBeginText (regexp.OpRepeat 8 regexp.perlDigit))
    regexp.OpEndText.

Definition lineFeed : string := String (ascii_of_nat 10) EmptyString.

Definition notInfinity (x : spec_float) : Prop :=
  match x with S754_infinity _ => False | _ => True end.

(** The request built by [http.NewRequestWithContext(ctx, "GET", url, nil)]. *)
Definition getRequest (url : string) : Request :=
  {| Method := "GET"; URL := url; Header := []; Payload := "" |}.

(** The request the gateway sends to the resolver. *)
Definition forwarded (P : Platform) (req : CEPRequest) : Request :=
  {| Method := "POST"; URL := ServiceA.serviceBURL;
     Header := [("Content-Type", "application/json")];
     Payload := marshalCEPRequest P req |}.

(** The inbound body decodes to [req] and its code passes validation. *)
Definition validRequest (P : Platform) (inbound : string) (req : CEPRequest) : Prop :=
  ShouldBindJSON P inbound = inr req /\ validateCEP (CEP req) = true.

(** The inbound body does not decode, or its code fails validation. *)
Definition invalidRequest (P : Platform) (inbound : string) : Prop :=
  match ShouldBindJSON P inbound with
  | inl _ => True
  | inr req => validateCEP (CEP req) = false
  end.

(** The postal provider's answer to the lookup of [cep] was read and decoded as [v]. *)
Definition postalLookupAnswers (P : Platform) (cep : string) (v : ViaCEPResponse) : Prop :=
  urlParse P (ServiceB.viaCEPURL cep) = None /\
  exists resp body,
    RoundTrip P (getRequest (ServiceB.viaCEPURL cep)) = inr resp /\
    Body resp = inr body /\
    unmarshalViaCEP P body = inr v.

(** The postal provider knows [cep] and places it in [city]. *)
Definition resolves (P : Platform) (cep city : string) : Prop :=
  exists v, postalLookupAnswers P cep v /\ Erro v = false /\ Localidade v = city.

(** The ways the lookup of [cep] fails short of a decoded payload, with the
    error [getCityFromCEP] returns for each. *)
Inductive postalLookupFails (P : Platform) (cep : string) : error -> Prop :=
| badURL cause :
    urlParse P (ServiceB.viaCEPURL cep) = Some cause ->
    postalLookupFails P cep (urlError "parse" (ServiceB.viaCEPURL cep) cause)
| transportFailure cause :
    urlParse P (ServiceB.viaCEPURL cep) = None ->
    RoundTrip P (getRequest (ServiceB.viaCEPURL cep)) = inl cause ->
    postalLookupFails P cep (urlError "Get" (ServiceB.viaCEPURL cep) cause)
| readFailure resp text :
    urlParse P (ServiceB.viaCEPURL cep) = None ->
    RoundTrip P (getRequest (ServiceB.viaCEPURL cep)) = inr resp ->
    Body resp = inl text ->
    postalLookupFails P cep (foreignError text)
| malformedPayload resp body text :
    urlParse P (ServiceB.viaCEPURL cep) = None ->
    RoundTrip P (getRequest (ServiceB.viaCEPURL cep)) = inr resp ->
    Body resp = inr body ->
    unmarshalViaCEP P body = inl text ->
    postalLookupFails P cep (foreignError text).

(** The handler tells the not-found outcome of the city lookup by the text
    of the error.  The text of an error of the standard library is taken
    not to be that text. *)
Definition libraryText (e : error) : Prop :=
  match e with
  | foreignError text => text <> "CEP not found"
  | _ => True
  end.

(** The credential is set and the weather provider answered the lookup of
    [city] with the response [resp]. *)
Definition weatherProviderAnswers (P : Platform) (city : string) (resp : Response) : Prop :=
  let apiKey := Getenv P "WEATHERAPI_KEY" in
  apiKey <> "" /\
  urlParse P (ServiceB.weatherURL P apiKey city) = None /\
  RoundTrip P (getRequest (ServiceB.weatherURL P apiKey city)) = inr resp.

Definition authRejected (resp : Response) : Prop :=
  StatusCode resp = ServiceB.StatusUnauthorized \/ StatusCode resp = ServiceB.StatusForbidden.

(** The response is not an authentication rejection and its body was read
    and decoded as [w]. *)
Definition weatherPayload (P : Platform) (resp : Response) (w : WeatherPayload) : Prop :=
  ~ authRejected resp /\
  exists body, Body resp = inr body /\ unmarshalWeather P body = inr w.

(** The error of [getWeather] when the credential is unset. *)
Definition missingCredential : error := errorString "WEATHERAPI_KEY not set".

(** The end of [getWeather], from the decoded payload on. *)
Definition payloadOutcome (w : WeatherPayload) : float * option error :=
  match EmbeddedError w with
  | Some werr =>
      if (Code werr =? 1006)%Z then (0%float, Some (errorString "city not found"))
      else (0%float,
            Some (errorString ("weatherapi error " ++ formatInt (Code werr) ++ ": " ++ Msg werr)))
  | None => (CurrentTempC w, None)
  end.




(** The Go specification lets a compiler fuse [x*y + z] into one operation
    that rounds once (the arm64 back end does).  [fusedMulAdd] is that
    operation on finite non-zero operands: the exact product and sum,
    rounded once. *)
Definition fusedMulAdd (x y z : float) : float :=
  match Prim2SF x, Prim2SF y, Prim2SF z with
  | S754_finite sx mx ex, S754_finite sy my ey, S754_finite sz mz ez =>
      let ep := (ex + ey)%Z in
      let e := Z.min ep ez in
      let mp := cond_Zopp (xorb sx sy) (Zpos (mx * my)) in
      let mz' := cond_Zopp sz (Zpos mz) in
      SF2Prim (binary_normalize prec emax
                 (mp * 2 ^ (ep - e) + mz' * 2 ^ (ez - e))%Z e false)
  | _, _, _ => (x * y + z)%float
  end.

(** ** A sample platform, to run the handlers on

    Bodies are decoded by table: the few texts below stand for themselves
    and any other text is a decoding error. *)
Module Sample.

Definition quoted (s : string) : string := doubleQuote ++ s ++ doubleQuote.

Definition cepBody (cep : string) : string :=
  "{" ++ quoted "cep" ++ ":" ++ quoted cep ++ "}".

Definition cityBody : string :=
  "{" ++ quoted "localidade" ++ ":" ++ quoted "São Paulo" ++ ","
      ++ quoted "uf" ++ ":" ++ quoted "SP" ++ "}".

Definition unknownBody : string := "{" ++ quoted "erro" ++ ":true}".

Definition currentBody : string :=
  "{" ++ quoted "current" ++ ":{" ++ quoted "temp_c" ++ ":28.5}}".

Definition errorBody (code message : string) : string :=
  "{" ++ quoted "error" ++ ":{" ++ quoted "code" ++ ":" ++ code ++ ","
      ++ quoted "message" ++ ":" ++ quoted message ++ "}}".

Definition noLocationBody : string := errorBody "1006" "No matching location found.".
Definition disabledKeyBody : string := errorBody "2008" "API key has been disabled.".

Fixpoint decodeBy {A} (table : list (string * A)) (body : string) : string + A :=
  match table with
  | [] => inl "unexpected end of JSON input"
  | (text, a) :: table' => if String.eqb body text then inr a else decodeBy table' body
  end.

Definition knownCEP : string := "29902555".
Definition unknownCEP : string := "00000000".
Definition unreachableCEP : string := "11111111".
Definition garbledCEP : string := "22222222".

Definition requests : list (string * CEPRequest) :=
  map (fun cep => (cepBody cep, {| CEP := cep |}))
      [knownCEP; unknownCEP; unreachableCEP; garbledCEP; "123"].

Definition cityPayload : ViaCEPResponse :=
  {| Localidade := "São Paulo"; UF := "SP"; Erro := false |}.
Definition unknownPayload : ViaCEPResponse :=
  {| Localidade := ""; UF := ""; Erro := true |}.

Definition postalPayloads : list (string * ViaCEPResponse) :=
  [ (cityBody, cityPayload); (unknownBody, unknownPayload) ].

Definition noLocationError : WeatherError :=
  {| Code := 1006; Msg := "No matching location found." |}.
Definition disabledKeyError : WeatherError :=
  {| Code := 2008; Msg := "API key has been disabled." |}.

Definition currentPayload : WeatherPayload :=
  {| CurrentTempC := 28.5; EmbeddedError := None |}.
Definition noLocationPayload : WeatherPayload :=
  {| CurrentTempC := 0; EmbeddedError := Some noLocationError |}.
Definition disabledKeyPayload : WeatherPayload :=
  {| CurrentTempC := 0; EmbeddedError := Some disabledKeyError |}.

Definition weatherPayloads : list (string * WeatherPayload) :=
  [ (currentBody, currentPayload);
    (noLocationBody, noLocationPayload);
    (disabledKeyBody, disabledKeyPayload) ].

Definition okJSON (status : Z) (body : string) : Response :=
  {| StatusCode := status; ContentType := "application/json"; Body := inr body |}.

(** The network: the postal provider by code, the weather provider and
    the resolver as given. *)
Definition network (weather resolver : string + Response) (r : Request) : string + Response :=
  if String.eqb (URL r) (ServiceB.viaCEPURL knownCEP) then inr (okJSON 200 cityBody)
  else if String.eqb (URL r) (ServiceB.viaCEPURL unknownCEP) then inr (okJSON 200 unknownBody)
  else if String.eqb (URL r) (ServiceB.viaCEPURL unreachableCEP) then
    inl "dial tcp: lookup viacep.com.br: no such host"
  else if String.eqb (URL r) (ServiceB.viaCEPURL garbledCEP) then inr (okJSON 200 "<html>")
  else if String.eqb (URL r) ServiceA.serviceBURL then resolver
  else weather.

Definition platform (apiKey : string) (weather resolver : string + Response) : Platform :=
  {| Getenv := fun name => if String.eqb name "WEATHERAPI_KEY" then apiKey else "";
     urlParse := fun _ => None;
     QueryEscape := fun s => s;   (* the sample leaves the text as it is *)
     RoundTrip := network weather resolver;
     marshalCEPRequest := fun req => cepBody (CEP req);
     ShouldBindJSON := decodeBy requests;
     unmarshalViaCEP := decodeBy postalPayloads;
     unmarshalWeather := decodeBy weatherPayloads |}.

Definition down : string + Response := inl "connection refused".

(** The weather provider reports 28.5 degrees with status 200. *)
Definition online : Platform := platform "key" (inr (okJSON 200 currentBody)) down.

(** The same report under status 500. *)
Definition online500 : Platform := platform "key" (inr (okJSON 500 currentBody)) down.

(** The weather provider does not know the city (code 1006, status 400). *)
Definition noLocation : Platform := platform "key" (inr (okJSON 400 noLocationBody)) down.

(** The weather provider refuses the key (code 2008) under status 400. *)
Definition disabledKey : Platform := platform "key" (inr (okJSON 400 disabledKeyBody)) down.

(** WEATHERAPI_KEY is unset. *)
Definition noCredential : Platform := platform "" (inr (okJSON 200 currentBody)) down.

Definition notFoundBody : string :=
  "{" ++ quoted "message" ++ ":" ++ quoted "can not find zipcode" ++ "}".

(** The resolver's 404, labelled as plain text. *)
Definition resolverNotFound : Response :=
  {| StatusCode := 404; ContentType := "text/plain"; Body := inr notFoundBody |}.

(** The gateway in front of a resolver that answers 404. *)
Definition gateway : Platform := platform "" down (inr resolverNotFound).

End Sample.

(** ** Vocabulary of the properties of whole runs *)

(** The outbound requests of a run, in order. *)
Definition httpCalls (l : list event) : list Request :=
  flat_map (fun e => match e with HTTPCall r => [r] | _ => [] end) l.

(** The errors recorded on [span] during a run, in order. *)
Definition recordedErrors (span : string) (l : list event) : list error :=
  flat_map (fun e =>
              match e with
              | RecordError s err => if String.eqb s span then [err] else []
              | _ => []
              end) l.

(** Spans are ended innermost first and none stays open; an attribute or
    an error goes to a span that is open; an outbound call happens inside
    a span.  [opened] holds the open spans, the innermost first. *)
Fixpoint spansNested (opened : list string) (l : list event) : bool :=
  match l with
  | [] => match opened with [] => true | _ :: _ => false end
  | SpanStart s :: l' => spansNested (s :: opened) l'
  | SpanEnd s :: l' =>
      match opened with
      | top :: opened' => String.eqb s top && spansNested opened' l'
      | [] => false
      end
  | SetAttributes s _ _ :: l' => existsb (String.eqb s) opened && spansNested opened l'
  | RecordError s _ :: l' => existsb (String.eqb s) opened && spansNested opened l'
  | HTTPCall _ :: l' =>
      match opened with
      | _ :: _ => spansNested opened l'
      | [] => false
      end
  end.

(** The reply of the resolver's last step, for [city] at [tempC]. *)
Definition weatherReply (city : string) (tempC : float) : Reply :=
  {| Status := 200;
     Sent := WeatherJSON {| City := city; TempC := tempC;
                            TempF := celsiusToFahrenheit tempC;
                            TempK := celsiusToKelvin tempC |} |}.

(** The ways the gateway's call to the resolver fails, with the error the
    handler records for each. *)
Inductive resolverCallFails (P : Platform) (req : CEPRequest) : error -> Prop :=
| resolverBadURL cause :
    urlParse P ServiceA.serviceBURL = Some cause ->
    resolverCallFails P req (urlError "parse" ServiceA.serviceBURL cause)
| resolverUnreachable cause :
    urlParse P ServiceA.serviceBURL = None ->
    RoundTrip P (forwarded P req) = inl cause ->
    resolverCallFails P req (urlError "Post" ServiceA.serviceBURL cause)
| resolverBodyUnread resp text :
    urlParse P ServiceA.serviceBURL = None ->
    RoundTrip P (forwarded P req) = inr resp ->
    Body resp = inl text ->
    resolverCallFails P req (foreignError text).

(** The resolver's reply as the gateway's client receives it; [render] is
    the serialisation done by [c.JSON]. *)
Definition rendered (render : Content -> string) (reply : Reply) : Response :=
  {| StatusCode := Status reply;
     ContentType := "application/json; charset=utf-8";
     Body := inr (render (Sent reply)) |}.

(** ** Further sample platforms *)
Module Scenario.

(** The weather provider rejects the key with status 401. *)
Definition unauthorized : Platform :=
  Sample.platform "key" (inr (Sample.okJSON 401 Sample.disabledKeyBody)) Sample.down.

(** The gateway with the resolver out of reach. *)
Definition resolverDown : Platform := Sample.platform "" Sample.down Sample.down.

(** [c.JSON] on the replies the samples produce. *)
Definition render (c : Content) : string :=
  match c with
  | ErrorJSON r => "{" ++ Sample.quoted "message" ++ ":" ++ Sample.quoted (Message r) ++ "}"
  | WeatherJSON r =>
      "{" ++ Sample.quoted "city" ++ ":" ++ Sample.quoted (City r) ++ ","
          ++ Sample.quoted "temp_C" ++ ":28.5,"
          ++ Sample.quoted "temp_F" ++ ":83.30000000000001,"
          ++ Sample.quoted "temp_K" ++ ":301.5}"
  | Data _ data => data
  end.

(** The gateway in front of the resolver running on [Sample.online], for
    the request with postal code [cep]. *)
Definition inFrontOf (cep : string) : Platform :=
  Sample.platform "" Sample.down
    (inr (rendered render (value (ServiceB.handler Sample.online (Sample.cepBody cep))))).

End Scenario.

(** * Properties *)

(** ** The postal-code validator *)

Section Validator.
Import regexp.

Lemma Compile_cepPattern : Compile cepPattern = Some cepRegexp.
Proof. reflexivity. Qed.

Lemma matchHere_repeat_S n a pos rest k :
  matchHere (OpRepeat (S n) a) pos rest k
  = matchHere a pos rest (fun pos' rest' => matchHere (OpRepeat n a) pos' rest' k).
Proof. reflexivity. Qed.

Lemma matchHere_class lo hi pos c rest k :
  matchHere (OpCharClass lo hi) pos (c :: rest) k = inRange lo hi c && k (S pos) rest.
Proof. reflexivity. Qed.

(** A counted repetition of a byte class consumes exactly [n] bytes of the class. *)
Lemma matchHere_repeat_class lo hi k n :
  forall pos rest,
    matchHere (OpRepeat n (OpCharClass lo hi)) pos rest k = true <->
    exists pre post,
      rest = (pre ++ post)%list /\ List.length pre = n /\
      forallb (inRange lo hi) pre = true /\ k (pos + n) post = true.
Proof.
  induction n as [|n IH]; intros pos rest.
  - simpl. split.
    + intros H. exists [], rest. rewrite Nat.add_0_r. auto.
    + intros (pre & post & -> & Hlen & _ & Hk).
      destruct pre; [|discriminate]. now rewrite Nat.add_0_r in Hk.
  - rewrite matchHere_repeat_S. destruct rest as [|c rest].
    + split; [discriminate|].
      intros (pre & post & Heq & Hlen & _). destruct pre; discriminate.
    + rewrite matchHere_class. cbv beta. rewrite andb_true_iff, IH. split.
      * intros (Hc & pre & post & -> & Hlen & Hall & Hk).
        exists (c :: pre), post. cbn. rewrite Hc, Hall, Hlen.
        rewrite Nat.add_succ_r. auto.
      * intros (pre & post & Heq & Hlen & Hall & Hk).
        destruct pre as [|c' pre]; [discriminate|].
        cbn in Heq, Hlen, Hall. injection Heq as -> ->. injection Hlen as Hlen.
        apply andb_true_iff in Hall as [Hc Hall]. split; [exact Hc|].
        exists pre, post. rewrite Nat.add_succ_r in Hk. auto.
Qed.

(** The leading anchor rules out every match that starts after offset 0. *)
Lemma searchFrom_anchored r r' rest :
  forall pos, searchFrom (OpConcat (OpConcat OpBeginText r) r') (S pos) rest = false.
Proof.
  induction rest as [|c rest IH]; intros pos; cbn [searchFrom matchHere].
  - reflexivity.
  - rewrite IH. reflexivity.
Qed.

Lemma length_list_ascii_of_string s :
  List.length (list_ascii_of_string s) = String.length s.
Proof. induction s as [|c s IH]; cbn; congruence. Qed.

Lemma Match_cepRegexp s : Match cepRegexp s = true <-> eightDigits s.
Proof.
  unfold Match, eightDigits. rewrite <- length_list_ascii_of_string.
  set (l := list_ascii_of_string s). clearbody l.
  assert (Hs : searchFrom cepRegexp 0 l
               = matchHere (OpRepeat 8 perlDigit) 0 l
                   (fun pos rest => matchHere OpEndText pos rest accept)).
  { unfold cepRegexp. destruct l as [|c l]; cbn [searchFrom matchHere Nat.eqb andb].
    - now rewrite orb_false_r.
    - now rewrite searchFrom_anchored, orb_false_r. }
  rewrite Hs. unfold perlDigit. rewrite matchHere_repeat_class. split.
  - intros (pre & post & -> & Hlen & Hall & Hk).
    destruct post; [|discriminate]. rewrite app_nil_r. auto.
  - intros [Hlen Hall]. exists l, []. rewrite app_nil_r. auto.
Qed.

End Validator.

(** C1. For every string, [validateCEP] answers true exactly when the string
    is eight bytes long and each byte is a decimal digit. *)
Theorem validateCEP_iff_eightDigits (s : string) :
  validateCEP s = true <-> eightDigits s.
Proof.
  unfold validateCEP, regexp.MatchString. rewrite Compile_cepPattern.
  apply Match_cepRegexp.
Qed.

(** Every other shape is rejected. *)
Corollary validateCEP_rejects (s : string) :
  ~ eightDigits s -> validateCEP s = false.
Proof.
  intros H. destruct (validateCEP s) eqn:E; [|reflexivity].
  apply validateCEP_iff_eightDigits in E. contradiction.
Qed.

Example validateCEP_samples :
  validateCEP "29902555" = true /\
  validateCEP "" = false /\
  validateCEP "123" = false /\
  validateCEP "299025550" = false /\
  validateCEP "29902-555" = false /\
  validateCEP "2990255a" = false /\
  validateCEP " 29902555" = false /\
  validateCEP "29902555 " = false /\
  validateCEP ("29902555" ++ lineFeed) = false.
Proof. repeat split; reflexivity. Qed.


(** ** Temperature conversion *)

Section Binary64.
Local Open Scope Z_scope.

Lemma shr_1_nonneg r : 0 <= shr_m r -> 0 <= shr_m (shr_1 r).
Proof.
  destruct r as [m a b]; cbn [shr_m]. intros H.
  destruct m as [|p|p]; [ | destruct p | lia ]; cbn; lia.
Qed.

Lemma iter_pos_shr_1_nonneg p :
  forall r, 0 <= shr_m r -> 0 <= shr_m (iter_pos shr_1 p r).
Proof.
  induction p as [p IH|p IH|]; intros r H; cbn [iter_pos].
  - apply IH, IH, shr_1_nonneg, H.
  - apply IH, IH, H.
  - apply shr_1_nonneg, H.
Qed.

Lemma shr_fexp_nonneg m e l :
  0 <= m -> 0 <= shr_m (fst (shr_fexp prec emax m e l)).
Proof.
  intros H. unfold shr_fexp, shr.
  assert (H0 : 0 <= shr_m (shr_record_of_loc m l)).
  { destruct l as [|[]]; exact H. }
  destruct (fexp prec emax (Zdigits2 m + e) - e); cbn [fst]; auto.
  now apply iter_pos_shr_1_nonneg.
Qed.

Lemma round_nearest_even_nonneg m l : 0 <= m -> 0 <= round_nearest_even m l.
Proof.
  intros H. destruct l as [|[]]; cbn; try lia. destruct (Z.even m); lia.
Qed.

(** Rounding a non-negative mantissa gives a zero, a finite value or an
    infinity, never NaN. *)
Lemma binary_round_aux_not_nan sx mx ex lx :
  0 <= mx -> binary_round_aux prec emax sx mx ex lx <> S754_nan.
Proof.
  intros H. unfold binary_round_aux.
  pose proof (shr_fexp_nonneg mx ex lx H) as H1.
  destruct (shr_fexp prec emax mx ex lx) as [mrs' e']. cbn [fst] in H1.
  pose proof (shr_fexp_nonneg _ e' loc_Exact
                (round_nearest_even_nonneg _ (loc_of_shr_record mrs') H1)) as H2.
  destruct (shr_fexp prec emax (round_nearest_even _ _) e' loc_Exact) as [mrs'' e''].
  cbn [fst] in H2. destruct (shr_m mrs'') as [|p|p]; [discriminate| |lia].
  destruct (e'' <=? emax - prec); discriminate.
Qed.

Lemma SF64mul_not_nan x sy my ey :
  x <> S754_nan -> notInfinity x -> SF64mul x (S754_finite sy my ey) <> S754_nan.
Proof.
  intros Hn Hi. destruct x; cbn; try discriminate; try contradiction.
  apply binary_round_aux_not_nan. lia.
Qed.

Lemma SF64add_not_nan x sy my ey :
  x <> S754_nan -> SF64add x (S754_finite sy my ey) <> S754_nan.
Proof.
  intros Hn. destruct x as [s|s| |s m e]; cbn; try discriminate; try contradiction.
  unfold binary_normalize.
  destruct (_ + _) as [|p|p]; [discriminate| |]; unfold binary_round;
    destruct (shl_align _ _ _); apply binary_round_aux_not_nan; lia.
Qed.

Lemma SFeqb_refl x : x <> S754_nan -> SFeqb x x = true.
Proof.
  intros Hn. destruct x as [s|s| |s m e]; try contradiction; unfold SFeqb; cbn.
  - reflexivity.
  - now destruct s.
  - rewrite Z.compare_refl. change (Pos.compare_cont Eq m m) with (Pos.compare m m).
    rewrite Pos.compare_refl. now destruct s.
Qed.

Lemma isFinite_spec c :
  isFinite c = true -> Prim2SF c <> S754_nan /\ notInfinity (Prim2SF c).
Proof.
  unfold isFinite, is_finite, is_nan, is_infinity.
  rewrite negb_true_iff, orb_false_iff, negb_false_iff.
  rewrite !eqb_spec, abs_spec. intros [Hn Hi].
  change (Prim2SF infinity) with (S754_infinity false) in Hi.
  destruct (Prim2SF c) as [s|s| |s m e]; cbn in *; try discriminate;
    (split; [discriminate | exact I]).
Qed.

(** The three constants of the conversions, as binary64 values. *)
Lemma constants_binary64 :
  Prim2SF 1.8 = S754_finite false 8106479329266893 (-52) /\
  Prim2SF 32 = S754_finite false 4503599627370496 (-47) /\
  Prim2SF 273 = S754_finite false 4802666790125568 (-44).
Proof. repeat split; reflexivity. Qed.

End Binary64.

(** C2. For every finite [c], [celsiusToFahrenheit c] is the value of
    [c*1.8 + 32] and [celsiusToKelvin c] the value of [c + 273], both as
    the same float64 and under Go's [==]; negative [c] included. *)
Theorem conversions_equal_formulas (c : float) :
  isFinite c = true ->
  celsiusToFahrenheit c = (c * 1.8 + 32)%float /\
  floatEq (celsiusToFahrenheit c) (c * 1.8 + 32)%float = true /\
  celsiusToKelvin c = (c + 273)%float /\
  floatEq (celsiusToKelvin c) (c + 273)%float = true.
Proof.
  intros H. apply isFinite_spec in H as [Hn Hi].
  destruct constants_binary64 as (H18 & H32 & H273).
  unfold floatEq, celsiusToFahrenheit, celsiusToKelvin. rewrite !eqb_spec.
  repeat split.
  - apply SFeqb_refl. rewrite add_spec, mul_spec, H32, H18.
    apply SF64add_not_nan. now apply SF64mul_not_nan.
  - apply SFeqb_refl. rewrite add_spec, H273. now apply SF64add_not_nan.
Qed.

Lemma conversions_equal_formulas_at_minus_40 :
  isFinite (-40) = true /\
  floatEq (celsiusToFahrenheit (-40)) (-40 * 1.8 + 32)%float = true /\
  floatEq (celsiusToKelvin (-40)) (-40 + 273)%float = true.
Proof.
  split; [reflexivity|].
  destruct (conversions_equal_formulas (-40)%float) as (_ & HF & _ & HK).
  - reflexivity.
  - split; [exact HF | exact HK].
Defined.

(** The offset to Kelvin is 273: 0 degrees Celsius is 273 K, and -273 is 0 K. *)
Example celsiusToKelvin_samples :
  celsiusToKelvin 0 = 273%float /\
  celsiusToKelvin (-273) = 0%float /\
  celsiusToKelvin 28.5 = 301.5%float /\
  celsiusToFahrenheit (-40) = (-40)%float /\
  celsiusToFahrenheit 100 = 212%float.
Proof. repeat split; reflexivity. Qed.

(** Finiteness matters for [==]: on NaN both sides are NaN and differ. *)
Example conversions_at_nan :
  floatEq (celsiusToFahrenheit nan) (nan * 1.8 + 32)%float = false /\
  floatEq (celsiusToKelvin nan) (nan + 273)%float = false.
Proof. split; reflexivity. Qed.

(** The example of the spec, 28.5 degrees Celsius: the product 28.5 * 1.8
    rounds up to 51.300000000000004, and the sum with 32 is one unit in the
    last place above 83.3.  Fused into one rounding, it is 83.3. *)
Lemma fahrenheit_of_28_5 :
  celsiusToFahrenheit 28.5 = 83.30000000000001%float /\
  celsiusToFahrenheit 28.5 = next_up 83.3 /\
  floatEq (celsiusToFahrenheit 28.5) 83.3 = false /\
  fusedMulAdd 28.5 1.8 32 = 83.3%float.
Proof. repeat split; reflexivity. Qed.

(** ** Running the lookups *)

Ltac run := cbv [bind emit ret withSpan value trace fst snd app].
Ltac run_keep := cbv [bind emit ret withSpan value trace fst snd negb].

Section Lookups.
Variable P : Platform.

Lemma getCityFromCEP_answers cep v :
  postalLookupAnswers P cep v ->
  ServiceB.getCityFromCEP P cep =
    if Erro v then
      (("", Some (errorString "CEP not found")),
       [SpanStart "viacep-lookup";
        SetAttributes "viacep-lookup" "cep" (AString cep);
        HTTPCall (getRequest (ServiceB.viaCEPURL cep));
        SetAttributes "viacep-lookup" "cep.not_found" (ABool true);
        SpanEnd "viacep-lookup"])
    else
      ((Localidade v, None),
       [SpanStart "viacep-lookup";
        SetAttributes "viacep-lookup" "cep" (AString cep);
        HTTPCall (getRequest (ServiceB.viaCEPURL cep));
        SetAttributes "viacep-lookup" "city" (AString (Localidade v));
        SetAttributes "viacep-lookup" "state" (AString (UF v));
        SpanEnd "viacep-lookup"]).
Proof.
  intros (Hurl & resp & body & Hrt & Hbody & Hdec).
  unfold ServiceB.getCityFromCEP, NewRequestWithContext, Do.
  rewrite Hurl. fold (getRequest (ServiceB.viaCEPURL cep)).
  rewrite Hrt. run. rewrite Hbody, Hdec.
  destruct (Erro v); reflexivity.
Qed.

Lemma getCityFromCEP_fails cep e :
  postalLookupFails P cep e ->
  exists l, ServiceB.getCityFromCEP P cep = (("", Some e), l).
Proof.
  intros H. unfold ServiceB.getCityFromCEP, NewRequestWithContext, Do.
  destruct H as [cause Hurl | cause Hurl Hrt | resp text Hurl Hrt Hbody
                | resp body text Hurl Hrt Hbody Hdec];
    rewrite Hurl; try (fold (getRequest (ServiceB.viaCEPURL cep)); rewrite Hrt);
    run; try rewrite Hbody; try rewrite Hdec; eexists; reflexivity.
Qed.

(** No error of a failed lookup reads as the not-found error. *)
Lemma library_text_not_CEP_not_found cep e :
  postalLookupFails P cep e -> libraryText e ->
  String.eqb (Error e) "CEP not found" = false.
Proof.
  intros H Ht. destruct H; try reflexivity;
    apply String.eqb_neq; exact Ht.
Qed.

Lemma getWeather_no_credential city :
  Getenv P "WEATHERAPI_KEY" = "" ->
  ServiceB.getWeather P city =
    ((0%float, Some missingCredential),
     [SpanStart "weather-lookup";
      SetAttributes "weather-lookup" "city" (AString city);
      RecordError "weather-lookup" missingCredential;
      SpanEnd "weather-lookup"]).
Proof. intros H. unfold ServiceB.getWeather. rewrite H. reflexivity. Qed.

Lemma not_authRejected resp :
  ~ authRejected resp ->
  (StatusCode resp =? ServiceB.StatusUnauthorized)%Z
  || (StatusCode resp =? ServiceB.StatusForbidden)%Z = false.
Proof.
  unfold authRejected. intros H. apply orb_false_iff.
  split; apply Z.eqb_neq; intros E; apply H; auto.
Qed.

(** A 401 or 403 fails the lookup before the body is read. *)
Lemma getWeather_auth_rejected city resp :
  weatherProviderAnswers P city resp ->
  authRejected resp ->
  value (ServiceB.getWeather P city)
  = (0%float, Some (errorString ("weatherapi auth error: " ++ formatInt (StatusCode resp)))).
Proof.
  intros (Hkey & Hurl & Hrt) Hauth.
  cbv zeta in Hkey, Hurl, Hrt.
  unfold ServiceB.getWeather, NewRequestWithContext, Do.
  apply String.eqb_neq in Hkey. rewrite Hkey, Hurl.
  fold (getRequest (ServiceB.weatherURL P (Getenv P "WEATHERAPI_KEY") city)).
  rewrite Hrt. run.
  assert (Hb : (StatusCode resp =? ServiceB.StatusUnauthorized)%Z
               || (StatusCode resp =? ServiceB.StatusForbidden)%Z = true).
  { apply orb_true_iff. destruct Hauth as [H|H]; [left|right]; now apply Z.eqb_eq. }
  rewrite Hb. reflexivity.
Qed.

(** [getWeather] up to the decoding of the body. *)
Lemma getWeather_decodes city resp body :
  weatherProviderAnswers P city resp ->
  ~ authRejected resp ->
  Body resp = inr body ->
  ServiceB.getWeather P city =
    let outcome :=
      match unmarshalWeather P body with
      | inl text => (0%float, Some (foreignError text))
      | inr w => payloadOutcome w
      end in
    (outcome,
     [SpanStart "weather-lookup";
      SetAttributes "weather-lookup" "city" (AString city);
      HTTPCall (getRequest (ServiceB.weatherURL P (Getenv P "WEATHERAPI_KEY") city));
      match snd outcome with
      | Some err => RecordError "weather-lookup" err
      | None => SetAttributes "weather-lookup" "temperature.celsius" (AFloat64 (fst outcome))
      end;
      SpanEnd "weather-lookup"]).
Proof.
  intros (Hkey & Hurl & Hrt) Hauth Hbody.
  cbv zeta in Hkey, Hurl, Hrt.
  unfold ServiceB.getWeather, NewRequestWithContext, Do.
  apply String.eqb_neq in Hkey. rewrite Hkey, Hurl.
  fold (getRequest (ServiceB.weatherURL P (Getenv P "WEATHERAPI_KEY") city)).
  rewrite Hrt. run. rewrite (not_authRejected _ Hauth), Hbody.
  destruct (unmarshalWeather P body) as [text|w]; [reflexivity|].
  unfold payloadOutcome. destruct (EmbeddedError w) as [werr|]; [|reflexivity].
  destruct (Code werr =? 1006)%Z; reflexivity.
Qed.

Lemma getWeather_payload city resp w :
  weatherProviderAnswers P city resp ->
  weatherPayload P resp w ->
  value (ServiceB.getWeather P city) = payloadOutcome w.
Proof.
  intros Hanswer (Hauth & body & Hbody & Hdec).
  rewrite (getWeather_decodes city resp body Hanswer Hauth Hbody), Hdec.
  reflexivity.
Qed.

(** [getWeather] run to its end, once a payload is decoded. *)
Lemma getWeather_runs city resp w :
  weatherProviderAnswers P city resp ->
  weatherPayload P resp w ->
  exists l, ServiceB.getWeather P city = (payloadOutcome w, l).
Proof.
  intros Hanswer (Hauth & body & Hbody & Hdec).
  rewrite (getWeather_decodes city resp body Hanswer Hauth Hbody), Hdec.
  eexists. reflexivity.
Qed.

End Lookups.

(** ** The resolver's handler *)

Ltac run_handler Hbind Hvalid :=
  unfold ServiceB.handler; rewrite Hbind, Hvalid.

(** C3. A validated request whose city lookup ends in the provider's
    not-found flag is answered 404 "can not find zipcode"; one whose city
    lookup fails otherwise (request, transport, body read, decoding) is
    answered 500 "internal server error" with the error recorded on the
    handler's span. *)
Theorem city_lookup_failure_mapping (P : Platform) (inbound : string) (req : CEPRequest) :
  validRequest P inbound req ->
  (forall v, postalLookupAnswers P (CEP req) v -> Erro v = true ->
     value (ServiceB.handler P inbound) = JSONError 404 "can not find zipcode") /\
  (forall e, postalLookupFails P (CEP req) e -> libraryText e ->
     value (ServiceB.handler P inbound) = JSONError 500 "internal server error" /\
     In (RecordError "weather-endpoint" e) (trace (ServiceB.handler P inbound))).
Proof.
  intros [Hbind Hvalid]. split.
  - intros v Hv Herro. run_handler Hbind Hvalid.
    rewrite (getCityFromCEP_answers P _ v Hv), Herro. reflexivity.
  - intros e He Ht. run_handler Hbind Hvalid.
    destruct (getCityFromCEP_fails P _ e He) as [l Hl]. rewrite Hl.
    run_keep. rewrite (library_text_not_CEP_not_found P _ e He Ht).
    split; [reflexivity|].
    rewrite !in_app_iff. cbn [In]. auto 10.
Qed.

Lemma city_lookup_failure_mapping_sample :
  value (ServiceB.handler Sample.online (Sample.cepBody Sample.unknownCEP))
    = JSONError 404 "can not find zipcode" /\
  value (ServiceB.handler Sample.online (Sample.cepBody Sample.unreachableCEP))
    = JSONError 500 "internal server error" /\
  value (ServiceB.handler Sample.online (Sample.cepBody Sample.garbledCEP))
    = JSONError 500 "internal server error" /\
  In (RecordError "weather-endpoint" (foreignError "unexpected end of JSON input"))
     (trace (ServiceB.handler Sample.online (Sample.cepBody Sample.garbledCEP))).
Proof.
  assert (Hvalid : forall cep,
             In cep [Sample.unknownCEP; Sample.unreachableCEP; Sample.garbledCEP] ->
             validRequest Sample.online (Sample.cepBody cep) {| CEP := cep |}).
  { intros cep [<-|[<-|[<-|[]]]]; split; reflexivity. }
  split; [|split].
  - apply (proj1 (city_lookup_failure_mapping Sample.online _ _
                    (Hvalid Sample.unknownCEP (or_introl eq_refl)))
             Sample.unknownPayload); [|reflexivity].
    split; [reflexivity|].
    exists (Sample.okJSON 200 Sample.unknownBody), Sample.unknownBody.
    repeat split; reflexivity.
  - apply (proj2 (city_lookup_failure_mapping Sample.online _ _
                    (Hvalid Sample.unreachableCEP (or_intror (or_introl eq_refl))))
             (urlError "Get" (ServiceB.viaCEPURL Sample.unreachableCEP)
                       "dial tcp: lookup viacep.com.br: no such host")); [|exact I].
    apply transportFailure; reflexivity.
  - apply (proj2 (city_lookup_failure_mapping Sample.online _ _
                    (Hvalid Sample.garbledCEP (or_intror (or_intror (or_introl eq_refl)))))
             (foreignError "unexpected end of JSON input")).
    + apply (malformedPayload _ _ (Sample.okJSON 200 "<html>") "<html>"); reflexivity.
    + discriminate.
Defined.

(** C4. When the weather provider's decoded payload embeds an error object,
    code 1006 makes the lookup fail with "city not found" and the handler
    answer 404 "can not find zipcode"; any other code makes the lookup fail
    with an error that carries the code and the provider's message, and the
    handler answer 500 "internal server error". *)
Theorem embedded_weather_error_mapping (P : Platform) (inbound : string) (req : CEPRequest)
    (city : string) (resp : Response) (w : WeatherPayload) (werr : WeatherError) :
  validRequest P inbound req ->
  resolves P (CEP req) city ->
  weatherProviderAnswers P city resp ->
  weatherPayload P resp w ->
  EmbeddedError w = Some werr ->
  (Code werr = 1006%Z ->
     value (ServiceB.getWeather P city) = (0%float, Some (errorString "city not found")) /\
     value (ServiceB.handler P inbound) = JSONError 404 "can not find zipcode") /\
  (Code werr <> 1006%Z ->
     value (ServiceB.getWeather P city)
       = (0%float, Some (errorString ("weatherapi error " ++ formatInt (Code werr)
                                      ++ ": " ++ Msg werr))) /\
     value (ServiceB.handler P inbound) = JSONError 500 "internal server error").
Proof.
  intros [Hbind Hvalid] (v & Hv & Herro & Hcity) Hanswer Hpayload Hembedded.
  destruct (getWeather_runs P city resp w Hanswer Hpayload) as [l Hw].
  unfold payloadOutcome in Hw. rewrite Hembedded in Hw.
  split; intros Hcode.
  - rewrite Hcode in Hw. cbn [Z.eqb Pos.eqb] in Hw. split.
    + rewrite Hw. reflexivity.
    + run_handler Hbind Hvalid.
      rewrite (getCityFromCEP_answers P _ v Hv), Herro, Hcity.
      run_keep. rewrite Hw. reflexivity.
  - apply Z.eqb_neq in Hcode. rewrite Hcode in Hw. split.
    + rewrite Hw. reflexivity.
    + run_handler Hbind Hvalid.
      rewrite (getCityFromCEP_answers P _ v Hv), Herro, Hcity.
      run_keep. rewrite Hw. reflexivity.
Qed.

Lemma sample_request_valid (apiKey : string) (weather resolver : string + Response) :
  validRequest (Sample.platform apiKey weather resolver)
    (Sample.cepBody Sample.knownCEP) {| CEP := Sample.knownCEP |}.
Proof. split; reflexivity. Qed.

Lemma sample_code_resolves (apiKey : string) (weather resolver : string + Response) :
  resolves (Sample.platform apiKey weather resolver) Sample.knownCEP "São Paulo".
Proof.
  exists Sample.cityPayload.
  split; [|split; reflexivity]. split; [reflexivity|].
  exists (Sample.okJSON 200 Sample.cityBody), Sample.cityBody.
  repeat split; reflexivity.
Qed.

Lemma sample_weather_answers (weather : Response) (resolver : string + Response) :
  weatherProviderAnswers (Sample.platform "key" (inr weather) resolver) "São Paulo" weather.
Proof. split; [discriminate|]. split; reflexivity. Qed.

Lemma sample_weather_payload (P : Platform) (status : Z) (body : string) (w : WeatherPayload) :
  status <> 401%Z -> status <> 403%Z ->
  unmarshalWeather P body = inr w ->
  weatherPayload P (Sample.okJSON status body) w.
Proof.
  intros H1 H3 Hdec. split.
  - intros [H|H]; [apply H1|apply H3]; exact H.
  - exists body. split; [reflexivity|exact Hdec].
Qed.

Lemma embedded_weather_error_mapping_sample :
  value (ServiceB.handler Sample.noLocation (Sample.cepBody Sample.knownCEP))
    = JSONError 404 "can not find zipcode" /\
  value (ServiceB.handler Sample.disabledKey (Sample.cepBody Sample.knownCEP))
    = JSONError 500 "internal server error" /\
  value (ServiceB.getWeather Sample.disabledKey "São Paulo")
    = (0%float, Some (errorString "weatherapi error 2008: API key has been disabled.")).
Proof.
  split.
  - destruct (embedded_weather_error_mapping Sample.noLocation
                (Sample.cepBody Sample.knownCEP) {| CEP := Sample.knownCEP |} "São Paulo"
                (Sample.okJSON 400 Sample.noLocationBody)
                Sample.noLocationPayload Sample.noLocationError) as [H1006 _].
    + apply sample_request_valid.
    + apply sample_code_resolves.
    + apply sample_weather_answers.
    + apply sample_weather_payload; [discriminate|discriminate|reflexivity].
    + reflexivity.
    + exact (proj2 (H1006 eq_refl)).
  - destruct (embedded_weather_error_mapping Sample.disabledKey
                (Sample.cepBody Sample.knownCEP) {| CEP := Sample.knownCEP |} "São Paulo"
                (Sample.okJSON 400 Sample.disabledKeyBody)
                Sample.disabledKeyPayload Sample.disabledKeyError) as [_ Hother].
    + apply sample_request_valid.
    + apply sample_code_resolves.
    + apply sample_weather_answers.
    + apply sample_weather_payload; [discriminate|discriminate|reflexivity].
    + reflexivity.
    + destruct Hother as [Hw Hh]; [discriminate|]. split; [exact Hh | exact Hw].
Defined.

(** C5. For a valid request whose postal code resolves to a city, when
    WEATHERAPI_KEY is unset the weather lookup fails without any outbound
    call, the error is recorded on the lookup's span and on the handler's
    span, the handler's only outbound call is the postal lookup, and the
    reply is 500 "internal server error". *)
Theorem missing_credential_fails_before_network (P : Platform) (inbound : string)
    (req : CEPRequest) (city : string) :
  validRequest P inbound req ->
  resolves P (CEP req) city ->
  Getenv P "WEATHERAPI_KEY" = "" ->
  value (ServiceB.getWeather P city) = (0%float, Some missingCredential) /\
  noNetwork (trace (ServiceB.getWeather P city)) /\
  In (RecordError "weather-lookup" missingCredential) (trace (ServiceB.getWeather P city)) /\
  In (RecordError "weather-endpoint" missingCredential) (trace (ServiceB.handler P inbound)) /\
  (forall r, In (HTTPCall r) (trace (ServiceB.handler P inbound)) ->
     r = getRequest (ServiceB.viaCEPURL (CEP req))) /\
  value (ServiceB.handler P inbound) = JSONError 500 "internal server error".
Proof.
  intros [Hbind Hvalid] (v & Hv & Herro & Hcity) Hkey.
  rewrite (getWeather_no_credential P city Hkey).
  assert (Hh : ServiceB.handler P inbound =
               (JSONError 500 "internal server error",
                [SpanStart "weather-endpoint";
                 SetAttributes "weather-endpoint" "cep" (AString (CEP req));
                 SpanStart "viacep-lookup";
                 SetAttributes "viacep-lookup" "cep" (AString (CEP req));
                 HTTPCall (getRequest (ServiceB.viaCEPURL (CEP req)));
                 SetAttributes "viacep-lookup" "city" (AString city);
                 SetAttributes "viacep-lookup" "state" (AString (UF v));
                 SpanEnd "viacep-lookup";
                 SpanStart "weather-lookup";
                 SetAttributes "weather-lookup" "city" (AString city);
                 RecordError "weather-lookup" missingCredential;
                 SpanEnd "weather-lookup";
                 RecordError "weather-endpoint" missingCredential;
                 SpanEnd "weather-endpoint"])).
  { run_handler Hbind Hvalid.
    rewrite (getCityFromCEP_answers P _ v Hv), Herro, Hcity.
    run_keep. rewrite (getWeather_no_credential P city Hkey). reflexivity. }
  rewrite Hh. cbv [value trace fst snd]. repeat split.
  - cbn [In]. auto 10.
  - cbn [In]. auto 20.
  - cbn [In]. intros r H.
    repeat (destruct H as [H|H]; [try discriminate H; try (injection H as <-; reflexivity)|]).
    contradiction.
Qed.

Lemma missing_credential_sample :
  noNetwork (trace (ServiceB.getWeather Sample.noCredential "São Paulo")) /\
  value (ServiceB.handler Sample.noCredential (Sample.cepBody Sample.knownCEP))
    = JSONError 500 "internal server error".
Proof.
  destruct (missing_credential_fails_before_network Sample.noCredential
              (Sample.cepBody Sample.knownCEP) {| CEP := Sample.knownCEP |} "São Paulo")
    as (_ & Hnet & _ & _ & _ & Hreply).
  - apply sample_request_valid.
  - apply sample_code_resolves.
  - reflexivity.
  - split; [exact Hnet | exact Hreply].
Defined.

(** C9. In the weather lookup, once the response is not 401 or 403 and its
    body is read, the status plays no part: a decoding error fails the
    lookup, an embedded error object fails it, and otherwise the lookup
    succeeds with the payload's Celsius value. *)
Theorem weather_outcome_from_payload_only (P : Platform) (city : string)
    (resp : Response) (body : string) :
  weatherProviderAnswers P city resp ->
  ~ authRejected resp ->
  Body resp = inr body ->
  value (ServiceB.getWeather P city) =
    match unmarshalWeather P body with
    | inl text => (0%float, Some (foreignError text))
    | inr w => payloadOutcome w
    end /\
  (forall w, unmarshalWeather P body = inr w -> EmbeddedError w = None ->
     value (ServiceB.getWeather P city) = (CurrentTempC w, None)) /\
  (forall w werr, unmarshalWeather P body = inr w -> EmbeddedError w = Some werr ->
     exists e, value (ServiceB.getWeather P city) = (0%float, Some e)).
Proof.
  intros Hanswer Hauth Hbody.
  rewrite (getWeather_decodes P city resp body Hanswer Hauth Hbody).
  cbv [value fst]. split; [reflexivity|]. split.
  - intros w -> Hnone. unfold payloadOutcome. now rewrite Hnone.
  - intros w werr -> Hembedded. unfold payloadOutcome. rewrite Hembedded.
    destruct (Code werr =? 1006)%Z; eexists; reflexivity.
Qed.

Lemma weather_outcome_under_status_500 :
  value (ServiceB.getWeather Sample.online500 "São Paulo") = (28.5%float, None).
Proof.
  destruct (weather_outcome_from_payload_only Sample.online500 "São Paulo"
              (Sample.okJSON 500 Sample.currentBody) Sample.currentBody) as (_ & H & _).
  - apply sample_weather_answers.
  - intros [H|H]; discriminate H.
  - reflexivity.
  - exact (H Sample.currentPayload eq_refl eq_refl).
Defined.




(** ** The gateway's handler *)

Lemma gateway_relays (P : Platform) (inbound : string) (req : CEPRequest)
    (resp : Response) (body : string) :
  validRequest P inbound req ->
  urlParse P ServiceA.serviceBURL = None ->
  RoundTrip P (forwarded P req) = inr resp ->
  Body resp = inr body ->
  ServiceA.handler P inbound =
    ({| Status := StatusCode resp; Sent := Data "application/json" body |},
     [SpanStart "validate-cep";
      SetAttributes "validate-cep" "cep" (AString (CEP req));
      SpanStart "call-service-b";
      HTTPCall (forwarded P req);
      SetAttributes "call-service-b" "http.status_code" (AInt64 (StatusCode resp));
      SpanEnd "call-service-b";
      SpanEnd "validate-cep"]).
Proof.
  intros [Hbind Hvalid] Hurl Hrt Hbody.
  unfold ServiceA.handler, NewRequestWithContext, Do.
  rewrite Hbind, Hvalid, Hurl. cbn [negb Method URL Payload].
  fold (forwarded P req). rewrite Hrt. run. rewrite Hbody. reflexivity.
Qed.

(** C6. Whatever status code and body the resolver returns to the gateway,
    the gateway's reply has that status code and that body, byte for byte. *)
Theorem gateway_passthrough (P : Platform) (inbound : string) (req : CEPRequest)
    (resp : Response) (body : string) :
  validRequest P inbound req ->
  urlParse P ServiceA.serviceBURL = None ->
  RoundTrip P (forwarded P req) = inr resp ->
  Body resp = inr body ->
  Status (value (ServiceA.handler P inbound)) = StatusCode resp /\
  exists contentType, Sent (value (ServiceA.handler P inbound)) = Data contentType body.
Proof.
  intros Hreq Hurl Hrt Hbody.
  rewrite (gateway_relays P inbound req resp body Hreq Hurl Hrt Hbody).
  split; [reflexivity|]. eexists. reflexivity.
Qed.

Lemma gateway_passthrough_sample :
  Status (value (ServiceA.handler Sample.gateway (Sample.cepBody Sample.knownCEP))) = 404%Z /\
  exists contentType,
    Sent (value (ServiceA.handler Sample.gateway (Sample.cepBody Sample.knownCEP)))
    = Data contentType Sample.notFoundBody.
Proof.
  apply (gateway_passthrough Sample.gateway (Sample.cepBody Sample.knownCEP)
           {| CEP := Sample.knownCEP |} Sample.resolverNotFound Sample.notFoundBody).
  - apply sample_request_valid.
  - reflexivity.
  - reflexivity.
  - reflexivity.
Defined.

(** C10. On the passthrough path the gateway writes its reply as
    "application/json" whatever content type the resolver's response
    carried: the reply is made of the response's status code and body
    alone. *)
Theorem gateway_content_type_fixed (P : Platform) (inbound : string) (req : CEPRequest)
    (resp : Response) (body : string) :
  validRequest P inbound req ->
  urlParse P ServiceA.serviceBURL = None ->
  RoundTrip P (forwarded P req) = inr resp ->
  Body resp = inr body ->
  value (ServiceA.handler P inbound)
  = {| Status := StatusCode resp; Sent := Data "application/json" body |}.
Proof.
  intros Hreq Hurl Hrt Hbody.
  rewrite (gateway_relays P inbound req resp body Hreq Hurl Hrt Hbody).
  reflexivity.
Qed.

Lemma gateway_content_type_fixed_sample :
  ContentType Sample.resolverNotFound = "text/plain" /\
  value (ServiceA.handler Sample.gateway (Sample.cepBody Sample.knownCEP))
  = {| Status := 404; Sent := Data "application/json" Sample.notFoundBody |}.
Proof.
  split; [reflexivity|].
  apply (gateway_content_type_fixed Sample.gateway (Sample.cepBody Sample.knownCEP)
           {| CEP := Sample.knownCEP |} Sample.resolverNotFound Sample.notFoundBody).
  - apply sample_request_valid.
  - reflexivity.
  - reflexivity.
  - reflexivity.
Defined.

(** ** Validation comes first, in both programs *)

Lemma invalid_request_runs (P : Platform) (inbound : string) :
  invalidRequest P inbound ->
  exists la lb,
    ServiceA.handler P inbound = (JSONError 422 "invalid zipcode", la) /\
    ServiceB.handler P inbound = (JSONError 422 "invalid zipcode", lb) /\
    noNetwork la /\ noNetwork lb.
Proof.
  unfold invalidRequest, ServiceA.handler, ServiceB.handler.
  destruct (ShouldBindJSON P inbound) as [text|req].
  - intros _. do 2 eexists. repeat split.
  - intros ->. do 2 eexists. repeat split.
Qed.

(** C7. In both programs a request whose body does not decode or whose
    postal code fails validation is answered 422 "invalid zipcode", and
    the handler makes no outbound call. *)
Theorem invalid_request_rejected_without_network (P : Platform) (inbound : string) :
  invalidRequest P inbound ->
  (value (ServiceA.handler P inbound) = JSONError 422 "invalid zipcode" /\
   noNetwork (trace (ServiceA.handler P inbound))) /\
  (value (ServiceB.handler P inbound) = JSONError 422 "invalid zipcode" /\
   noNetwork (trace (ServiceB.handler P inbound))).
Proof.
  intros H. destruct (invalid_request_runs P inbound H) as (la & lb & -> & -> & Ha & Hb).
  repeat split; assumption.
Qed.

Lemma invalid_request_rejected_sample :
  value (ServiceA.handler Sample.gateway (Sample.cepBody "123"))
    = JSONError 422 "invalid zipcode" /\
  value (ServiceB.handler Sample.online (Sample.cepBody "123"))
    = JSONError 422 "invalid zipcode" /\
  value (ServiceB.handler Sample.online "not json") = JSONError 422 "invalid zipcode" /\
  noNetwork (trace (ServiceB.handler Sample.online "not json")).
Proof.
  split; [|split].
  - apply (invalid_request_rejected_without_network Sample.gateway (Sample.cepBody "123")).
    reflexivity.
  - apply (invalid_request_rejected_without_network Sample.online (Sample.cepBody "123")).
    reflexivity.
  - apply (invalid_request_rejected_without_network Sample.online "not json").
    exact I.
Defined.

(** Seen from the trace: a handler that made an outbound call had a valid request. *)
Corollary network_only_after_validation (P : Platform) (inbound : string) :
  ~ noNetwork (trace (ServiceA.handler P inbound)) \/
  ~ noNetwork (trace (ServiceB.handler P inbound)) ->
  exists req, validRequest P inbound req.
Proof.
  intros H. unfold validRequest.
  assert (Hinv : ~ invalidRequest P inbound).
  { intros Hi. destruct (invalid_request_runs P inbound Hi) as (la & lb & Ea & Eb & Ha & Hb).
    rewrite Ea, Eb in H. tauto. }
  unfold invalidRequest in Hinv.
  destruct (ShouldBindJSON P inbound) as [text|req]; [tauto|].
  exists req. split; [reflexivity|].
  destruct (validateCEP (CEP req)); [reflexivity|tauto].
Qed.

(** * Properties of whole runs *)

(** One step of a run: unfold the program as far as the next outcome of
    the platform. *)
Ltac unfold_run :=
  cbv beta iota zeta delta
    [bind emit ret withSpan value trace fst snd app negb
     NewRequestWithContext Do
     ServiceA.handler ServiceB.handler ServiceB.getCityFromCEP ServiceB.getWeather
     Method URL Header Payload].

Ltac next_outcome :=
  lazymatch goal with
  | |- context [ShouldBindJSON ?P ?b] => destruct (ShouldBindJSON P b) eqn:?
  | |- context [validateCEP (CEP ?r)] => destruct (validateCEP (CEP r)) eqn:?
  | |- context [urlParse ?P ?u] => destruct (urlParse P u) eqn:?
  | |- context [RoundTrip ?P ?r] => destruct (RoundTrip P r) eqn:?
  | |- context [match Body ?r with _ => _ end] => destruct (Body r) eqn:?
  | |- context [unmarshalViaCEP ?P ?b] => destruct (unmarshalViaCEP P b) eqn:?
  | |- context [unmarshalWeather ?P ?b] => destruct (unmarshalWeather P b) eqn:?
  | |- context [if Erro ?v then _ else _] => destruct (Erro v) eqn:?
  | |- context [match EmbeddedError ?w with _ => _ end] => destruct (EmbeddedError w) eqn:?
  | |- context [if String.eqb ?a ?b then _ else _] => destruct (String.eqb a b) eqn:?
  | |- context [if (?a =? ?b)%Z || ?c then _ else _] => destruct (a =? b)%Z eqn:?; cbv beta iota delta [orb]
  | |- context [if (?a =? ?b)%Z then _ else _] => destruct (a =? b)%Z eqn:?
  end.

Ltac all_runs := unfold_run; repeat (next_outcome; unfold_run).

(** X1. Spans in every run of the two handlers and the two lookups are
    well nested. *)
Theorem spans_nested_in_every_run (P : Platform) (inbound cep city : string) :
  spansNested [] (trace (ServiceA.handler P inbound)) = true /\
  spansNested [] (trace (ServiceB.handler P inbound)) = true /\
  spansNested [] (trace (ServiceB.getCityFromCEP P cep)) = true /\
  spansNested [] (trace (ServiceB.getWeather P city)) = true.
Proof.
  repeat split.
  - all_runs; reflexivity.
  - all_runs; reflexivity.
  - all_runs; reflexivity.
  - all_runs; reflexivity.
Qed.

(** ** The gateway *)

(** The request a run decoded, taken from the run's assumptions. *)
Ltac with_request k :=
  lazymatch goal with
  | H : ShouldBindJSON _ _ = inr ?req |- _ => k req
  end.

(** X2. The gateway makes at most one outbound call, only for a request
    that decoded and passed validation, and that call is the POST of the
    re-serialised request to the resolver, labelled as JSON. *)
Theorem gateway_calls_only_the_resolver (P : Platform) (inbound : string) :
  httpCalls (trace (ServiceA.handler P inbound)) = [] \/
  exists req,
    validRequest P inbound req /\
    httpCalls (trace (ServiceA.handler P inbound)) = [forwarded P req] /\
    Method (forwarded P req) = "POST" /\
    URL (forwarded P req) = "http://service-b:8081/weather" /\
    Header (forwarded P req) = [("Content-Type", "application/json")] /\
    Payload (forwarded P req) = marshalCEPRequest P req.
Proof.
  all_runs;
    first [ solve [left; reflexivity]
          | right; with_request ltac:(fun req => exists req);
            (split; [split; assumption|]); repeat split ].
Qed.

(** X3. Every reply of the gateway is one of three: 422 "invalid zipcode"
    for a request that does not decode or validate; 500 "internal server
    error" with exactly one error recorded on the call's span when the
    call to the resolver fails; or the resolver's status code and body
    under content type "application/json". *)
Theorem gateway_reply_cases (P : Platform) (inbound : string) :
  (invalidRequest P inbound /\
   value (ServiceA.handler P inbound) = JSONError 422 "invalid zipcode") \/
  (exists req e,
     validRequest P inbound req /\ resolverCallFails P req e /\
     value (ServiceA.handler P inbound) = JSONError 500 "internal server error" /\
     recordedErrors "call-service-b" (trace (ServiceA.handler P inbound)) = [e]) \/
  (exists req resp body,
     validRequest P inbound req /\
     RoundTrip P (forwarded P req) = inr resp /\ Body resp = inr body /\
     value (ServiceA.handler P inbound)
     = {| Status := StatusCode resp; Sent := Data "application/json" body |} /\
     recordedErrors "call-service-b" (trace (ServiceA.handler P inbound)) = []).
Proof.
  unfold invalidRequest. all_runs.
  - left. split; [exact I|reflexivity].
  - right; left. with_request ltac:(fun req => exists req). eexists.
    split; [split; assumption|].
    split; [eapply resolverBadURL; eassumption|]. split; reflexivity.
  - right; left. with_request ltac:(fun req => exists req). eexists.
    split; [split; assumption|].
    split; [eapply resolverUnreachable; eassumption|]. split; reflexivity.
  - right; left. with_request ltac:(fun req => exists req). eexists.
    split; [split; assumption|].
    split; [eapply resolverBodyUnread; eassumption|]. split; reflexivity.
  - right; right. with_request ltac:(fun req => exists req). do 2 eexists.
    split; [split; assumption|].
    split; [eassumption|]. split; [eassumption|]. split; reflexivity.
  - left. split; reflexivity.
Qed.

(** ** The resolver *)

Lemma valid_code_is_eight_digits (cep : string) :
  validateCEP cep = true -> eightDigits cep.
Proof.
  unfold validateCEP, regexp.MatchString. rewrite Compile_cepPattern.
  apply Match_cepRegexp.
Qed.

(** The facts of a run's assumptions, in the vocabulary of the properties. *)
Ltac run_facts :=
  repeat match goal with
    | H : String.eqb _ _ = false |- _ => apply String.eqb_neq in H
    | H : String.eqb _ _ = true |- _ => apply String.eqb_eq in H
    | H : (_ =? _)%Z = false |- _ => apply Z.eqb_neq in H
    | H : (_ =? _)%Z = true |- _ => apply Z.eqb_eq in H
    end.

Ltac postal_answer :=
  lazymatch goal with
  | Hu : urlParse ?P (ServiceB.viaCEPURL ?cep) = None,
    Hd : unmarshalViaCEP ?P ?body = inr ?v,
    Hb : Body ?resp = inr ?body |- _ =>
      assert (postalLookupAnswers P cep v)
        by (split; [exact Hu|]; exists resp, body; repeat split; assumption)
  end.

Ltac weather_answer :=
  lazymatch goal with
  | Hk : Getenv ?P "WEATHERAPI_KEY" <> "",
    Hr : RoundTrip ?P {| Method := "GET"; URL := ServiceB.weatherURL ?P _ ?city;
                         Header := []; Payload := "" |} = inr ?resp |- _ =>
      assert (weatherProviderAnswers P city resp)
        by (split; [exact Hk|]; split; assumption)
  end.

(** X4. The resolver calls out at most twice and in order: first the GET
    of the postal provider's URL for the validated eight-digit code, then,
    only when that code resolved to a city and the credential is set, the
    GET of the weather provider's URL for that city. *)
Theorem resolver_calls_in_order (P : Platform) (inbound : string) :
  httpCalls (trace (ServiceB.handler P inbound)) = [] \/
  exists req,
    validRequest P inbound req /\ eightDigits (CEP req) /\
    (httpCalls (trace (ServiceB.handler P inbound))
     = [getRequest (ServiceB.viaCEPURL (CEP req))] \/
     exists city,
       resolves P (CEP req) city /\ Getenv P "WEATHERAPI_KEY" <> "" /\
       httpCalls (trace (ServiceB.handler P inbound))
       = [getRequest (ServiceB.viaCEPURL (CEP req));
          getRequest (ServiceB.weatherURL P (Getenv P "WEATHERAPI_KEY") city)]).
Proof.
  all_runs;
    first
      [ solve [left; reflexivity]
      | right; with_request ltac:(fun req => exists req);
        split; [split; assumption|];
        split; [apply valid_code_is_eight_digits; assumption|];
        first
          [ solve [left; reflexivity]
          | right; run_facts; postal_answer;
            lazymatch goal with
            | H : postalLookupAnswers _ _ ?v |- _ =>
                exists (Localidade v);
                split; [exists v; split; [assumption|split; [assumption|reflexivity]]|];
                split; [assumption|reflexivity]
            end ] ].
Qed.

(** X5. Every reply of the resolver is one of four: 422 "invalid zipcode"
    for a request that does not decode or validate, with no outbound
    call; 404 "can not find zipcode" with nothing recorded on the
    handler's span; 500 "internal server error" with exactly one error
    recorded on the handler's span; or 200 with a city, its Celsius value
    and the two values converted from it, with nothing recorded. *)
Theorem resolver_reply_cases (P : Platform) (inbound : string) :
  (invalidRequest P inbound /\
   value (ServiceB.handler P inbound) = JSONError 422 "invalid zipcode" /\
   httpCalls (trace (ServiceB.handler P inbound)) = []) \/
  (value (ServiceB.handler P inbound) = JSONError 404 "can not find zipcode" /\
   recordedErrors "weather-endpoint" (trace (ServiceB.handler P inbound)) = []) \/
  (value (ServiceB.handler P inbound) = JSONError 500 "internal server error" /\
   exists e, recordedErrors "weather-endpoint" (trace (ServiceB.handler P inbound)) = [e]) \/
  (exists city tempC,
     value (ServiceB.handler P inbound) = weatherReply city tempC /\
     recordedErrors "weather-endpoint" (trace (ServiceB.handler P inbound)) = []).
Proof.
  unfold invalidRequest. all_runs;
    first
      [ solve [left; repeat split]
      | solve [right; left; split; reflexivity]
      | solve [right; right; left; split; [reflexivity|eexists; reflexivity]]
      | solve [right; right; right; do 2 eexists; split; reflexivity] ].
Qed.

(** X6. When the provider's answer is decoded without the not-found flag
    and the weather payload carries no error object, the resolver replies
    200 with the provider's locality, the payload's Celsius value and the
    two values converted from it; nothing is recorded as an error on any
    of its spans, and the two lookups were its only calls. *)
Theorem resolver_success_reply (P : Platform) (inbound : string) (req : CEPRequest)
    (city : string) (resp : Response) (w : WeatherPayload) :
  validRequest P inbound req ->
  resolves P (CEP req) city ->
  weatherProviderAnswers P city resp ->
  weatherPayload P resp w ->
  EmbeddedError w = None ->
  value (ServiceB.handler P inbound) = weatherReply city (CurrentTempC w) /\
  recordedErrors "weather-endpoint" (trace (ServiceB.handler P inbound)) = [] /\
  recordedErrors "viacep-lookup" (trace (ServiceB.handler P inbound)) = [] /\
  recordedErrors "weather-lookup" (trace (ServiceB.handler P inbound)) = [] /\
  httpCalls (trace (ServiceB.handler P inbound))
  = [getRequest (ServiceB.viaCEPURL (CEP req));
     getRequest (ServiceB.weatherURL P (Getenv P "WEATHERAPI_KEY") city)].
Proof.
  intros [Hbind Hvalid] (v & Hv & Herro & Hcity) Hanswer (Hauth & body & Hbody & Hdec) Hnone.
  run_handler Hbind Hvalid.
  rewrite (getCityFromCEP_answers P _ v Hv), Herro, Hcity. run_keep.
  rewrite (getWeather_decodes P city resp body Hanswer Hauth Hbody), Hdec.
  unfold payloadOutcome. rewrite Hnone.
  repeat split.
Qed.

(** X7. The resolver replies 200 in that situation and in no other. *)
Theorem resolver_200_exactly_on_success (P : Platform) (inbound : string) :
  Status (value (ServiceB.handler P inbound)) = 200%Z <->
  exists req city resp w,
    validRequest P inbound req /\
    resolves P (CEP req) city /\
    weatherProviderAnswers P city resp /\
    weatherPayload P resp w /\
    EmbeddedError w = None.
Proof.
  split.
  - all_runs; cbv [Status JSONError]; intros H200; try discriminate H200.
    run_facts. postal_answer. weather_answer.
    with_request ltac:(fun req => exists req).
    lazymatch goal with
    | Hp : postalLookupAnswers _ _ ?v, Hw : weatherProviderAnswers _ _ ?resp,
      Hd : unmarshalWeather _ ?body = inr ?w |- _ =>
        exists (Localidade v), resp, w;
        split; [split; assumption|];
        split; [exists v; split; [assumption|split; [assumption|reflexivity]]|];
        split; [assumption|];
        split; [|assumption];
        split; [intros [Hs|Hs]; contradiction|];
        exists body; split; assumption
    end.
  - intros (req & city & resp & w & [Hbind Hvalid] & (v & Hv & Herro & Hcity)
            & Hanswer & (Hauth & body & Hbody & Hdec) & Hnone).
    run_handler Hbind Hvalid.
    rewrite (getCityFromCEP_answers P _ v Hv), Herro, Hcity. run_keep.
    rewrite (getWeather_decodes P city resp body Hanswer Hauth Hbody), Hdec.
    unfold payloadOutcome. rewrite Hnone. reflexivity.
Qed.

(** X8. A 401 or 403 from the weather provider, whatever its body, makes
    the resolver reply 500 "internal server error"; the error, which
    names the status, is recorded on the lookup's span and on the
    handler's span. *)
Theorem resolver_auth_rejected (P : Platform) (inbound : string) (req : CEPRequest)
    (city : string) (resp : Response) :
  validRequest P inbound req ->
  resolves P (CEP req) city ->
  weatherProviderAnswers P city resp ->
  authRejected resp ->
  let err := errorString ("weatherapi auth error: " ++ formatInt (StatusCode resp)) in
  value (ServiceB.handler P inbound) = JSONError 500 "internal server error" /\
  recordedErrors "weather-lookup" (trace (ServiceB.handler P inbound)) = [err] /\
  recordedErrors "weather-endpoint" (trace (ServiceB.handler P inbound)) = [err].
Proof.
  intros [Hbind Hvalid] (v & Hv & Herro & Hcity) (Hkey & Hurl & Hrt) Hauth err.
  cbv zeta in Hkey, Hurl, Hrt.
  assert (Hb : (StatusCode resp =? ServiceB.StatusUnauthorized)%Z
               || (StatusCode resp =? ServiceB.StatusForbidden)%Z = true).
  { apply orb_true_iff. destruct Hauth as [H|H]; [left|right]; now apply Z.eqb_eq. }
  assert (Hw : ServiceB.getWeather P city =
               ((0%float, Some err),
                [SpanStart "weather-lookup";
                 SetAttributes "weather-lookup" "city" (AString city);
                 HTTPCall (getRequest (ServiceB.weatherURL P (Getenv P "WEATHERAPI_KEY") city));
                 RecordError "weather-lookup" err;
                 SpanEnd "weather-lookup"])).
  { unfold ServiceB.getWeather, NewRequestWithContext, Do.
    apply String.eqb_neq in Hkey. rewrite Hkey, Hurl.
    fold (getRequest (ServiceB.weatherURL P (Getenv P "WEATHERAPI_KEY") city)).
    rewrite Hrt. run. rewrite Hb. reflexivity. }
  run_handler Hbind Hvalid.
  rewrite (getCityFromCEP_answers P _ v Hv), Herro, Hcity. run_keep.
  rewrite Hw. repeat split.
Qed.

Lemma resolver_success_reply_sample :
  value (ServiceB.handler Sample.online (Sample.cepBody Sample.knownCEP))
  = weatherReply "São Paulo" 28.5.
Proof.
  destruct (resolver_success_reply Sample.online (Sample.cepBody Sample.knownCEP)
              {| CEP := Sample.knownCEP |} "São Paulo"
              (Sample.okJSON 200 Sample.currentBody) Sample.currentPayload) as [H _].
  - apply sample_request_valid.
  - apply sample_code_resolves.
  - apply sample_weather_answers.
  - apply sample_weather_payload; [discriminate|discriminate|reflexivity].
  - reflexivity.
  - exact H.
Defined.

Lemma resolver_auth_rejected_sample :
  value (ServiceB.handler Scenario.unauthorized (Sample.cepBody Sample.knownCEP))
  = JSONError 500 "internal server error" /\
  recordedErrors "weather-endpoint"
    (trace (ServiceB.handler Scenario.unauthorized (Sample.cepBody Sample.knownCEP)))
  = [errorString "weatherapi auth error: 401"].
Proof.
  destruct (resolver_auth_rejected Scenario.unauthorized (Sample.cepBody Sample.knownCEP)
              {| CEP := Sample.knownCEP |} "São Paulo"
              (Sample.okJSON 401 Sample.disabledKeyBody)) as (H & _ & He).
  - apply sample_request_valid.
  - apply sample_code_resolves.
  - apply sample_weather_answers.
  - left. reflexivity.
  - split; [exact H|exact He].
Defined.

(** ** The two lookups *)

(** X9. [getWeather] returns an error exactly when it records one on its
    span, and then returns 0 as the temperature; on success nothing is
    recorded and the temperature is attached to the span. *)
Theorem getWeather_records_what_it_returns (P : Platform) (city : string) :
  match value (ServiceB.getWeather P city) with
  | (tempC, Some err) =>
      tempC = 0%float /\
      recordedErrors "weather-lookup" (trace (ServiceB.getWeather P city)) = [err]
  | (tempC, None) =>
      recordedErrors "weather-lookup" (trace (ServiceB.getWeather P city)) = [] /\
      In (SetAttributes "weather-lookup" "temperature.celsius" (AFloat64 tempC))
         (trace (ServiceB.getWeather P city))
  end.
Proof.
  all_runs; split; try reflexivity. cbn [In]. auto 10.
Qed.


(** ** The gateway's failures *)

(** X11. When the gateway's call to the resolver fails (the request cannot
    be built, the transport fails, or the body cannot be read) the reply
    is 500 "internal server error", and the error is recorded once, on
    the call's span and not on the validation span. *)
Theorem gateway_upstream_failure (P : Platform) (inbound : string) (req : CEPRequest)
    (e : error) :
  validRequest P inbound req ->
  resolverCallFails P req e ->
  value (ServiceA.handler P inbound) = JSONError 500 "internal server error" /\
  recordedErrors "call-service-b" (trace (ServiceA.handler P inbound)) = [e] /\
  recordedErrors "validate-cep" (trace (ServiceA.handler P inbound)) = [].
Proof.
  intros [Hbind Hvalid] Hfail.
  unfold ServiceA.handler, NewRequestWithContext, Do. rewrite Hbind, Hvalid.
  destruct Hfail as [cause Hurl | cause Hurl Hrt | resp text Hurl Hrt Hbody];
    rewrite Hurl; cbn [negb Method URL Payload];
    try (fold (forwarded P req); rewrite Hrt); run; try rewrite Hbody;
    repeat split.
Qed.

Lemma gateway_upstream_failure_sample :
  value (ServiceA.handler Scenario.resolverDown (Sample.cepBody Sample.knownCEP))
  = JSONError 500 "internal server error".
Proof.
  destruct (gateway_upstream_failure Scenario.resolverDown (Sample.cepBody Sample.knownCEP)
              {| CEP := Sample.knownCEP |}
              (urlError "Post" ServiceA.serviceBURL "connection refused")) as [H _].
  - apply sample_request_valid.
  - apply resolverUnreachable; reflexivity.
  - exact H.
Defined.

(** ** Errors are told apart by their text *)

(** X12. The handler maps an error of the city lookup by its text alone:
    the text "CEP not found" gives 404 "can not find zipcode" with
    nothing recorded on the handler's span, any other text gives 500
    "internal server error" with the error recorded there; the weather
    provider is not called in either case. *)
Theorem city_error_mapped_by_text (P : Platform) (inbound : string) (req : CEPRequest)
    (city : string) (e : error) :
  validRequest P inbound req ->
  value (ServiceB.getCityFromCEP P (CEP req)) = (city, Some e) ->
  (Error e = "CEP not found" ->
     value (ServiceB.handler P inbound) = JSONError 404 "can not find zipcode" /\
     recordedErrors "weather-endpoint" (trace (ServiceB.handler P inbound)) = []) /\
  (Error e <> "CEP not found" ->
     value (ServiceB.handler P inbound) = JSONError 500 "internal server error" /\
     recordedErrors "weather-endpoint" (trace (ServiceB.handler P inbound)) = [e]) /\
  httpCalls (trace (ServiceB.handler P inbound))
  = httpCalls (trace (ServiceB.getCityFromCEP P (CEP req))).
Proof.
  intros [Hbind Hvalid] Hcity.
  assert (Hinner : recordedErrors "weather-endpoint"
                     (trace (ServiceB.getCityFromCEP P (CEP req))) = []).
  { clear. all_runs; reflexivity. }
  run_handler Hbind Hvalid.
  destruct (ServiceB.getCityFromCEP P (CEP req)) as [[city' err] l].
  cbv [value trace fst snd] in Hcity, Hinner. injection Hcity as -> ->.
  run_keep. unfold recordedErrors, httpCalls in *.
  split; [|split].
  - intros Ht. apply String.eqb_eq in Ht. rewrite Ht. cbv [fst snd].
    split; [reflexivity|]. cbn [flat_map app]. rewrite !flat_map_app, Hinner. reflexivity.
  - intros Ht. apply String.eqb_neq in Ht. rewrite Ht. cbv [fst snd].
    split; [reflexivity|]. cbn [flat_map app]. rewrite !flat_map_app, Hinner. reflexivity.
  - destruct (String.eqb (Error e) "CEP not found"); cbv [fst snd];
      cbn [flat_map app]; rewrite !flat_map_app; cbn [flat_map app];
      now rewrite !app_nil_r.
Qed.

Lemma city_error_mapped_by_text_sample :
  value (ServiceB.handler Sample.online (Sample.cepBody Sample.garbledCEP))
  = JSONError 500 "internal server error" /\
  recordedErrors "weather-endpoint"
    (trace (ServiceB.handler Sample.online (Sample.cepBody Sample.garbledCEP)))
  = [foreignError "unexpected end of JSON input"].
Proof.
  destruct (city_error_mapped_by_text Sample.online (Sample.cepBody Sample.garbledCEP)
              {| CEP := Sample.garbledCEP |} ""
              (foreignError "unexpected end of JSON input")) as (_ & H & _).
  - split; reflexivity.
  - reflexivity.
  - apply H. discriminate.
Defined.

(** X13. The handler maps an error of the weather lookup by its text
    alone: the text "city not found" gives 404 "can not find zipcode"
    with nothing recorded on the handler's span, any other text gives 500
    "internal server error" with the error recorded there. *)
Theorem weather_error_mapped_by_text (P : Platform) (inbound : string) (req : CEPRequest)
    (city : string) (tempC : float) (e : error) :
  validRequest P inbound req ->
  resolves P (CEP req) city ->
  value (ServiceB.getWeather P city) = (tempC, Some e) ->
  (Error e = "city not found" ->
     value (ServiceB.handler P inbound) = JSONError 404 "can not find zipcode" /\
     recordedErrors "weather-endpoint" (trace (ServiceB.handler P inbound)) = []) /\
  (Error e <> "city not found" ->
     value (ServiceB.handler P inbound) = JSONError 500 "internal server error" /\
     recordedErrors "weather-endpoint" (trace (ServiceB.handler P inbound)) = [e]).
Proof.
  intros [Hbind Hvalid] (v & Hv & Herro & Hcity) Hweather.
  assert (Hinner : recordedErrors "weather-endpoint"
                     (trace (ServiceB.getWeather P city)) = []).
  { clear. all_runs; reflexivity. }
  run_handler Hbind Hvalid.
  rewrite (getCityFromCEP_answers P _ v Hv), Herro, Hcity. run_keep.
  destruct (ServiceB.getWeather P city) as [[tempC' err] l].
  cbv [value trace fst snd] in Hweather, Hinner. injection Hweather as -> ->.
  unfold recordedErrors in *.
  split.
  - intros Ht. apply String.eqb_eq in Ht. rewrite Ht.
    split; [reflexivity|]. cbn [flat_map app String.eqb Ascii.eqb Bool.eqb].
    rewrite !flat_map_app, Hinner. reflexivity.
  - intros Ht. apply String.eqb_neq in Ht. rewrite Ht.
    split; [reflexivity|]. cbn [flat_map app String.eqb Ascii.eqb Bool.eqb].
    rewrite !flat_map_app, Hinner. reflexivity.
Qed.

Lemma weather_error_mapped_by_text_sample :
  value (ServiceB.handler Sample.noLocation (Sample.cepBody Sample.knownCEP))
  = JSONError 404 "can not find zipcode" /\
  recordedErrors "weather-endpoint"
    (trace (ServiceB.handler Sample.noLocation (Sample.cepBody Sample.knownCEP))) = [].
Proof.
  destruct (weather_error_mapped_by_text Sample.noLocation (Sample.cepBody Sample.knownCEP)
              {| CEP := Sample.knownCEP |} "São Paulo" 0%float
              (errorString "city not found")) as [H _].
  - apply sample_request_valid.
  - apply sample_code_resolves.
  - reflexivity.
  - apply H. reflexivity.
Defined.

(** ** The gateway in front of the resolver *)

Lemma valid_request_not_422 (P : Platform) (inbound : string) (req : CEPRequest) :
  validRequest P inbound req ->
  Status (value (ServiceB.handler P inbound)) = 200%Z \/
  Status (value (ServiceB.handler P inbound)) = 404%Z \/
  Status (value (ServiceB.handler P inbound)) = 500%Z.
Proof.
  intros [Hbind Hvalid]. run_handler Hbind Hvalid.
  all_runs; cbv [Status JSONError]; auto.
Qed.

(** X14. When the resolver decodes the gateway's re-serialised request to
    the request the gateway validated, the resolver's own validation
    never rejects it: behind the gateway the resolver replies 200, 404 or
    500, never 422, and the gateway's reply is that status with the
    rendered body. *)
Theorem gateway_in_front_of_resolver (PA PB : Platform) (render : Content -> string)
    (inbound : string) (req : CEPRequest) :
  validRequest PA inbound req ->
  urlParse PA ServiceA.serviceBURL = None ->
  ShouldBindJSON PB (marshalCEPRequest PA req) = inr req ->
  RoundTrip PA (forwarded PA req)
  = inr (rendered render (value (ServiceB.handler PB (Payload (forwarded PA req))))) ->
  let reply := value (ServiceB.handler PB (marshalCEPRequest PA req)) in
  value (ServiceA.handler PA inbound)
  = {| Status := Status reply; Sent := Data "application/json" (render (Sent reply)) |} /\
  Status reply <> 422%Z /\
  (Status reply = 200%Z \/ Status reply = 404%Z \/ Status reply = 500%Z).
Proof.
  intros Hreq Hurl Hround Hrt reply.
  assert (Hcases : Status reply = 200%Z \/ Status reply = 404%Z \/ Status reply = 500%Z).
  { apply (valid_request_not_422 PB _ req). split; [exact Hround|exact (proj2 Hreq)]. }
  split; [|split; [|exact Hcases]].
  - rewrite (gateway_relays PA inbound req _ (render (Sent reply)) Hreq Hurl Hrt); reflexivity.
  - destruct Hcases as [H|[H|H]]; rewrite H; discriminate.
Qed.

Lemma gateway_in_front_of_resolver_sample :
  value (ServiceA.handler (Scenario.inFrontOf Sample.unknownCEP)
           (Sample.cepBody Sample.unknownCEP))
  = {| Status := 404; Sent := Data "application/json" Sample.notFoundBody |}.
Proof.
  destruct (gateway_in_front_of_resolver (Scenario.inFrontOf Sample.unknownCEP)
              Sample.online Scenario.render (Sample.cepBody Sample.unknownCEP)
              {| CEP := Sample.unknownCEP |}) as [H _].
  - split; reflexivity.
  - reflexivity.
  - reflexivity.
  - reflexivity.
  - exact H.
Defined.
